(** * komidabot: the Slack plugin [plugins/komida_bot.py]

    A shallow embedding of the plugin's functions ([get_campus], [get_date],
    [get_menu], [create_attachments], [format_menu] and
    [KomidaPlugin.process_message]) and the properties of its
    specification, proved or refuted on that embedding.

    Conventions of the embedding.
    - A Python [str] is a [string] holding its UTF-8 bytes.  Every needle the
      plugin searches for is ASCII, and an ASCII needle occurs in a text
      exactly when its bytes occur in the UTF-8 bytes of the text; the order
      of two strings by code points is their order by bytes.
    - A [datetime] whose time of day is midnight (all that [get_date] ever
      builds) is its proleptic Gregorian ordinal, a [Z]: what
      [date.toordinal()] returns.
    - A Python [dict] is an association list in insertion order without
      repeated keys.
    - Code that raises returns [Raise e]; code with effects threads a
      [world]. *)

From Stdlib Require Import ZArith List String Ascii Bool Lia.
From Stdlib Require Import Sorting.Sorted Sorting.Permutation.
Import ListNotations.

Local Open Scope string_scope.
Local Open Scope Z_scope.
Local Open Scope list_scope.

(** ** Python built-ins used by the plugin *)

(** An exception object: an instance of Python's [Exception] class, given by
    the name of its class and its message ([str(e)]).  These are the errors
    the statement [except Exception] of line 192 handles. *)
Inductive exn : Type :=
| Exn (cls : string) (msg : string).

Definition exn_str (e : exn) : string :=
  match e with Exn _ msg => msg end.

(** The outcome of an expression that may raise. *)
Inductive result (A : Type) : Type :=
| Ok (a : A)
| Raise (e : exn).

Arguments Ok {A} a.
Arguments Raise {A} e.

(** [sub in s] on strings: [sub] is a prefix of some suffix of [s]. *)
Fixpoint contains (sub s : string) : bool :=
  String.prefix sub s ||
  match s with
  | EmptyString => false
  | String _ s' => contains sub s'
  end.

(** [any(p(x) for x in xs)] *)
Definition any {A : Type} (p : A -> bool) (xs : list A) : bool :=
  existsb p xs.

(** [sorted(xs)] for a list whose elements are ordered by [leb]: a stable
    sort.  On the total orders of this file (strings, dates) equivalent
    elements are equal, so the result does not depend on the algorithm. *)
Fixpoint insert_sorted {A : Type} (leb : A -> A -> bool) (x : A) (l : list A)
  : list A :=
  match l with
  | [] => [x]
  | y :: l' => if leb y x then y :: insert_sorted leb x l' else x :: y :: l'
  end.

Definition sorted {A : Type} (leb : A -> A -> bool) (xs : list A) : list A :=
  fold_left (fun acc x => insert_sorted leb x acc) xs [].

(** [len(xs) > 0] *)
Definition nonempty {A : Type} (xs : list A) : bool :=
  match xs with [] => false | _ :: _ => true end.

(** ** Text classifier *)

(** [campus_options], lines 27-28. *)
Definition campus_options : list (string * list string) :=
  [ ("cde", ["cde"; "drie eiken"]);
    ("cgb", ["cgb"; "groenenborger"]);
    ("cmi", ["cmi"; "middelheim"]);
    ("cst", ["cst"; "stad"; "city"]) ].

(** The list [['cmi']] that [get_campus] falls back to, line 31. *)
Definition default_campus : list string := ["cmi"].

(** [get_campus], lines 30-31. *)
Definition get_campus (text : string) : list string :=
  let campus :=
    sorted String.leb
      (map fst
         (filter (fun o => any (fun c_text => contains c_text text) (snd o))
                 campus_options)) in
  if nonempty campus then campus else default_campus.

(** [datetime.min] and [datetime.max] as ordinals (years 1 to 9999). *)
Definition date_min : Z := 1.
Definition date_max : Z := 3652059.

(** [d.weekday()]: Monday is 0 and Sunday is 6. *)
Definition weekday (d : Z) : Z := (d + 6) mod 7.

(** [d + datetime.timedelta(days=n)]: raises [OverflowError] outside the
    range of [datetime]. *)
Definition date_add (d n : Z) : result Z :=
  if (date_min <=? d + n) && (d + n <=? date_max)
  then Ok (d + n)
  else Raise (Exn "OverflowError" "date value out of range").

(** [date_options], lines 48-51, for the day [today]. *)
Definition date_options (today : Z) : list (string * Z) :=
  [ ("today", 0); ("tomorrow", 1); ("yesterday", -1);
    ("monday", 0 - weekday today);
    ("tuesday", 1 - weekday today); ("wednesday", 2 - weekday today);
    ("thursday", 3 - weekday today); ("friday", 4 - weekday today);
    ("saturday", 5 - weekday today); ("sunday", 6 - weekday today) ].

(** A list comprehension [[f(x) for x in xs]] whose body may raise: the
    elements are computed from left to right and the first exception ends
    the comprehension. *)
Fixpoint comprehension {A B : Type} (f : A -> result B) (xs : list A)
  : result (list B) :=
  match xs with
  | [] => Ok []
  | x :: xs' =>
      match f x with
      | Raise e => Raise e
      | Ok y =>
          match comprehension f xs' with
          | Raise e => Raise e
          | Ok ys => Ok (y :: ys)
          end
      end
  end.

(** [get_date], lines 47-54; [today] is the value of
    [datetime.datetime.today()] truncated to midnight. *)
Definition get_date (today : Z) (text : string) : result (list Z) :=
  match
    comprehension (fun o => date_add today (snd o))
      (filter (fun o => contains (fst o) text) (date_options today))
  with
  | Raise e => Raise e
  | Ok ds =>
      let dates := sorted Z.leb ds in
      Ok (if nonempty dates then dates else [today])
  end.

(** The dates [get_date] computes before it sorts them: one for each keyword
    of [date_options] that occurs in the text, in the order of the table. *)
Definition candidate_dates (today : Z) (text : string) : list Z :=
  map (fun o => today + snd o)
    (filter (fun o => contains (fst o) text) (date_options today)).

(** The names of the days of the week in [date_options], by index. *)
Definition weekday_names : list string :=
  ["monday"; "tuesday"; "wednesday"; "thursday"; "friday"; "saturday";
   "sunday"].

(** ** Dictionaries *)

Section Dict.
Context {K V : Type}.
Variable eqb : K -> K -> bool.

(** [d.get(k)]: [None] when [k] is not a key. *)
Fixpoint dict_get (k : K) (d : list (K * V)) : option V :=
  match d with
  | [] => None
  | (k', v) :: d' => if eqb k k' then Some v else dict_get k d'
  end.

(** [k in d] *)
Definition dict_mem (k : K) (d : list (K * V)) : bool :=
  match dict_get k d with Some _ => true | None => false end.

(** [d[k] = v]: a key already present keeps its place, a new key goes
    last. *)
Fixpoint dict_set (k : K) (v : V) (d : list (K * V)) : list (K * V) :=
  match d with
  | [] => [(k, v)]
  | (k', v') :: d' =>
      if eqb k k' then (k', v) :: d' else (k', v') :: dict_set k v d'
  end.

(** [d.keys()], in iteration order. *)
Definition dict_keys (d : list (K * V)) : list K := map fst d.
End Dict.

(** Equality of the keys [(date, campus)] of the query result. *)
Definition key_eqb (a b : Z * string) : bool :=
  (fst a =? fst b) && String.eqb (snd a) (snd b).

(** The line feed of ['\n']. *)
Definition nl : string := String (ascii_of_nat 10) EmptyString.

(** [s.upper()] on ASCII letters.  The plugin calls it on campus codes and
    on their join with [', ']. *)
Definition upper_ascii (c : ascii) : ascii :=
  let n := nat_of_ascii c in
  if (Nat.leb 97 n && Nat.leb n 122)%bool then ascii_of_nat (n - 32) else c.

Fixpoint upper (s : string) : string :=
  match s with
  | EmptyString => EmptyString
  | String c s' => String (upper_ascii c) (upper s')
  end.

(** [re.search('^l+u+n+c+h+!+$', text)]: a run of each letter in turn, a run
    of exclamation marks, then the end of the text, which [$] also matches
    before one final line feed. *)
Fixpoint skip_run (c : ascii) (s : string) : string :=
  match s with
  | EmptyString => EmptyString
  | String a s' => if Ascii.eqb a c then skip_run c s' else s
  end.

Definition one_or_more (c : ascii) (s : string) : option string :=
  match s with
  | EmptyString => None
  | String a s' => if Ascii.eqb a c then Some (skip_run c s') else None
  end.

Definition lunch_re (text : string) : bool :=
  match one_or_more "l" text with
  | None => false
  | Some s1 =>
  match one_or_more "u" s1 with
  | None => false
  | Some s2 =>
  match one_or_more "n" s2 with
  | None => false
  | Some s3 =>
  match one_or_more "c" s3 with
  | None => false
  | Some s4 =>
  match one_or_more "h" s4 with
  | None => false
  | Some s5 =>
  match one_or_more "!" s5 with
  | None => false
  | Some rest => String.eqb rest "" || String.eqb rest nl
  end end end end end end.

(** [campus_colors], line 92. *)
Definition campus_colors : list (string * string) :=
  [ ("cde", "good"); ("cgb", "warning"); ("cmi", "danger");
    ("cst", "#439FE0") ].

(** A card of the reply, lines 96-97. *)
Record attachment : Type := {
  title : string;
  color : string;
  body : string
}.

(** The keyword arguments of [slack_client.api_call('chat.postMessage', ...)]. *)
Record request : Type := {
  rq_channel : string;
  rq_text : string;
  rq_attachments : option (list attachment);
  rq_username : string;
  rq_icon_emoji : string
}.

(** The dictionary Slack answers with: the plugin reads its keys ['ok'] and
    ['error'], either of which may be missing. *)
Record response : Type := {
  ok : option bool;
  error : option string
}.

(** The inbound Slack event, a dictionary whose keys may all be missing. *)
Record message : Type := {
  username : option string;
  subtype : option string;
  text : option string;
  channel : option string
}.

(** ** The plugin over its environment *)

Section Plugin.
(** A price as sqlite hands it to Python, and ['{:.2f}'.format] on it:
    floating point, taken as given. *)
Variable price : Type.
Variable format_2f : price -> string.
(** [d.strftime('%A %d %B')], which depends on the locale of the host. *)
Variable strftime_A_d_B : Z -> string.
(** [s.lower()], Unicode case tables included. *)
Variable lower : string -> string.

(** The value stored for a menu type: [(menu_item, price_student,
    price_staff)], line 77. *)
Definition item : Type := string * price * price.
(** A row of the query: [(type, item, price_student, price_staff)]. *)
Definition row : Type := string * item.
(** The items of one day at one campus, by menu type. *)
Definition entry : Type := list (string * item).
(** What [get_menu] returns. *)
Definition menus : Type := list ((Z * string) * entry).

(** What the plugin reads and changes outside itself. *)
Record world : Type := {
  clock : Z;
    (** the local date, as [datetime.datetime.today()] sees it *)
  store : Z -> string -> result (list row);
    (** the rows of table [menu] in [menu.db] for a date and a campus, or
        the error sqlite raises for that query *)
  connections : list nat;
    (** the sqlite connections opened and not closed since *)
  next_connection : nat;
  statements : list (nat * Z * string);
    (** the [SELECT]s executed, with their connection and parameters *)
  logs : list (string * string);
    (** the records handed to [logging], with their level *)
  entropy : list nat
    (** what the random generator draws next *)
}.

(** Stateful code that may raise. *)
Definition M (A : Type) : Type := world -> result A * world.

Definition ret {A : Type} (a : A) : M A := fun w => (Ok a, w).

Definition raise {A : Type} (e : exn) : M A := fun w => (Raise e, w).

Definition bind {A B : Type} (m : M A) (k : A -> M B) : M B :=
  fun w =>
    match m w with
    | (Ok a, w') => k a w'
    | (Raise e, w') => (Raise e, w')
    end.

(** [try: body / except Exception as e: handler] *)
Definition try_except {A : Type} (body : M A) (handler : exn -> M A) : M A :=
  fun w =>
    match body w with
    | (Ok a, w') => (Ok a, w')
    | (Raise e, w') => handler e w'
    end.

Notation "x <- m ;; k" := (bind m (fun x => k))
  (at level 61, m at next level, right associativity).
Notation "m ;;; k" := (bind m (fun _ => k))
  (at level 61, right associativity).

(** A [for] loop that updates the local variable [s]. *)
Fixpoint for_each {A S : Type} (xs : list A) (loop_body : A -> S -> M S)
  (s : S) : M S :=
  match xs with
  | [] => ret s
  | x :: xs' => s' <- loop_body x s ;; for_each xs' loop_body s'
  end.

(** [logging.debug], [logging.error] and [logging.exception]. *)
Definition logging (level msg : string) : M unit :=
  fun w =>
    (Ok tt,
     {| clock := clock w; store := store w; connections := connections w;
        next_connection := next_connection w; statements := statements w;
        logs := logs w ++ [(level, msg)]; entropy := entropy w |}).

(** [random.choice(xs)] *)
Definition random_choice (xs : list string) : M string :=
  fun w =>
    (Ok (nth (Nat.modulo (hd 0%nat (entropy w)) (List.length xs)) xs ""),
     {| clock := clock w; store := store w; connections := connections w;
        next_connection := next_connection w; statements := statements w;
        logs := logs w; entropy := tl (entropy w) |}).

(** *** Menu repository *)

(** [sqlite3.connect('menu.db')] and [conn.cursor()], lines 70-71: a new
    connection, named by a handle that was not in use. *)
Definition sqlite3_connect : M nat :=
  fun w =>
    (Ok (next_connection w),
     {| clock := clock w; store := store w;
        connections := next_connection w :: connections w;
        next_connection := S (next_connection w);
        statements := statements w; logs := logs w;
        entropy := entropy w |}).

(** [c.execute('SELECT ... WHERE date = ? AND campus = ?', (date, campus))]
    followed by [c.fetchall()], lines 75-76. *)
Definition select (conn : nat) (date : Z) (campus : string) : M (list row) :=
  fun w =>
    (store w date campus,
     {| clock := clock w; store := store w; connections := connections w;
        next_connection := next_connection w;
        statements := statements w ++ [(conn, date, campus)];
        logs := logs w; entropy := entropy w |}).

(** [menu[(date, campus)][menu_type] = (menu_item, price_student,
    price_staff)] on the [defaultdict(dict)], line 77: a missing key gets an
    empty dictionary first. *)
Definition add_row (key : Z * string) (r : row) (menu : menus) : menus :=
  let inner :=
    match dict_get key_eqb key menu with
    | Some e => e
    | None => []
    end in
  dict_set key_eqb key (dict_set String.eqb (fst r) (snd r) inner) menu.

(** [get_menu], lines 70-79.  [list_prod dates campuses] is
    [itertools.product(dates, campuses)]. *)
Definition get_menu (campuses : list string) (dates : list Z) : M menus :=
  conn <- sqlite3_connect ;;
  for_each (list_prod dates campuses)
    (fun key menu =>
       rows <- select conn (fst key) (snd key) ;;
       ret (fold_left (fun m r => add_row key r m) rows menu))
    [].

(** *** Menu formatter *)

(** The template ['<icon> {} (€{:.2f} / €{:.2f})'] formatted with the three
    components of [v]. *)
Definition line (icon : string) (v : item) : string :=
  (icon ++ " " ++ fst (fst v) ++ " (€" ++ format_2f (snd (fst v)) ++ " / €"
        ++ format_2f (snd v) ++ ")")%string.

(** The statement [if k in menu: message.append(line(menu[k]))]. *)
Definition append_if_present (icon k : string) (menu : entry)
  (msg : list string) : list string :=
  if dict_mem String.eqb k menu then
    match dict_get String.eqb k menu with
    | Some v => msg ++ [line icon v]
    | None => msg
    end
  else msg.

(** The loop [for key in menu.keys(): if word in key:
    message.append(line(menu[key]))]. *)
Definition append_matching (icon word : string) (menu : entry)
  (msg : list string) : list string :=
  fold_left
    (fun msg key =>
       if contains word key then
         match dict_get String.eqb key menu with
         | Some v => msg ++ [line icon v]
         | None => msg
         end
       else msg)
    (dict_keys menu) msg.

(** The list [message] that [format_menu] builds, lines 113-125. *)
Definition format_menu_lines (menu : entry) : list string :=
  let message := [] in
  let message := append_if_present ":tea:" "soup" menu message in
  let message := append_if_present ":tomato:" "vegetarian" menu message in
  let message := append_if_present ":poultry_leg:" "meat" menu message in
  let message := append_matching ":meat_on_bone:" "grill" menu message in
  let message := append_matching ":spaghetti:" "pasta" menu message in
  message.

(** [format_menu], line 127. *)
Definition format_menu (menu : entry) : string :=
  String.concat nl (format_menu_lines menu).

(** [create_attachments], lines 92-99; [campus_colors[campus]] raises
    [KeyError] for a campus without a colour. *)
Definition create_attachments (menu : menus) : result (list attachment) :=
  comprehension
    (fun kv : (Z * string) * entry =>
       let '((date, campus), menu_items) := kv in
       match dict_get String.eqb campus campus_colors with
       | None => Raise (Exn "KeyError" campus)
       | Some c =>
           Ok {| title := ("Menu komida " ++ upper campus ++ " on "
                            ++ strftime_A_d_B date)%string;
                 color := c;
                 body := format_menu menu_items |}
       end)
    menu.

(** *** Bot controller *)

(** [self.slack_client.api_call('chat.postMessage', ...)] and
    [self.update.run(self.slack_client)]: the chat transport and the refresh
    job, which may do anything to the world and may raise. *)
Variable api_call : request -> M response.
Variable update_run : M unit.

(** Evaluating an expression that may raise. *)
Definition eval {A : Type} (r : result A) : M A := fun w => (r, w).

(** [get_date(text)] at the date of the clock. *)
Definition get_date_now (text : string) : M (list Z) :=
  fun w => (get_date (clock w) text, w).

(** [response['ok']] and [response['error']] *)
Definition getitem_ok (r : response) : M bool :=
  match ok r with
  | Some b => ret b
  | None => raise (Exn "KeyError" "'ok'")
  end.

Definition getitem_error (r : response) : M string :=
  match error r with
  | Some s => ret s
  | None => raise (Exn "KeyError" "'error'")
  end.

(** A call of [chat.postMessage] as the bot. *)
Definition post (chan txt : string) (atts : option (list attachment))
  : M response :=
  api_call {| rq_channel := chan; rq_text := txt; rq_attachments := atts;
              rq_username := "komidabot";
              rq_icon_emoji := ":fork_and_knife:" |}.

(** [process_error], lines 226-235. *)
Definition process_error (chan reason : string) : M unit :=
  logging "error" ("Failed to post to Slack: " ++ reason)%string ;;;
  r <- post chan
         ("I'm sorry, I can't tell you the menu. Error status: "
            ++ reason)%string None ;;
  sent <- getitem_ok r ;;
  if negb sent then
    err <- getitem_error r ;;
    logging "error" ("Failed to post to Slack: " ++ err)%string
  else ret tt.

(** [if not response['ok']: self.process_error(data['channel'],
    response['error'])], lines 186-187 and 212-213. *)
Definition check_sent (chan : string) (r : response) : M unit :=
  sent <- getitem_ok r ;;
  if negb sent then
    err <- getitem_error r ;;
    process_error chan err
  else ret tt.

(** The body of the [try] statement, lines 180-191: the interim notice,
    the refresh and the second lookup, whose result is assigned to
    [menus]. *)
Definition refresh_and_retry (chan : string) (campuses : list string)
  (dates : list Z) : M menus :=
  logging "debug" "No menu found, updating..." ;;;
  r <- post chan
         ("I don't have the menu for "
            ++ upper (String.concat ", " campuses) ++ " on "
            ++ String.concat ", " (map strftime_A_d_B dates)
            ++ ". Let me see if I can find it online...")%string None ;;
  check_sent chan r ;;;
  update_run ;;;
  get_menu campuses dates.

(** The [try] statement of lines 179-193, run when the first lookup found
    nothing.  Its body assigns [menus] in its last statement only, so when
    the handler runs [menus] still holds the first result [found]. *)
Definition recovery (chan : string) (campuses : list string)
  (dates : list Z) (found : menus) : M menus :=
  try_except
    (refresh_and_retry chan campuses dates)
    (fun e =>
       logging "exception"
         ("Problem while updating the menu: " ++ exn_str e)%string ;;;
       ret found).

Definition fail_gifs : list string :=
  [ "https://giphy.com/gifs/monkey-laptop-baboon-xTiTnJ3BooiDs8dL7W";
    "https://giphy.com/gifs/office-space-jBBRs81dGWHIY";
    "https://giphy.com/gifs/computer-Zw133sEVc0WXK";
    "https://giphy.com/gifs/computer-D8kdCAJIoSQ6I";
    "https://giphy.com/gifs/richard-ayoade-it-crowd-maurice-moss-dbtDDSvWErdf2" ].

(** The reply and the check that it was sent, lines 196-213. *)
Definition reply (chan : string) (found : menus) : M unit :=
  r <- (if nonempty found then
          atts <- eval (create_attachments found) ;;
          post chan "*LUNCH!*" (Some atts)
        else
          gif <- random_choice fail_gifs ;;
          post chan
            ("_COMPUTER SAYS NO._ I'm sorry, no menu has been found."
               ++ nl ++ gif)%string None) ;;
  check_sent chan r.

(** Lines 172-213: what [process_message] does with a message it answers. *)
Definition answer (chan txt : string) : M unit :=
  let campuses := get_campus txt in
  dates <- get_date_now txt ;;
  found <- get_menu campuses dates ;;
  found <- (if nonempty found then ret found
            else recovery chan campuses dates found) ;;
  reply chan found.

(** [KomidaPlugin.process_message], lines 159-213.  [data.get('channel')]
    is [None] for a message without that key, and [None] has no method
    [startswith]. *)
Definition process_message (data : message) : M unit :=
  if (match username data with
      | Some u => String.eqb u "komidabot"
      | None => false
      end)
     || (match subtype data with
         | Some s => contains "bot" s
         | None => false
         end)
  then ret tt
  else
    match text data with
    | None => ret tt
    | Some t =>
        let txt := lower t in
        match channel data with
        | None =>
            raise (Exn "AttributeError"
                     "'NoneType' object has no attribute 'startswith'")
        | Some chan =>
            if String.prefix "C" chan
               && negb (contains "komidabot" txt || lunch_re txt)
            then ret tt
            else answer chan txt
        end
    end.
End Plugin.

Arguments clock {price} w.
Arguments store {price} w.
Arguments connections {price} w.
Arguments next_connection {price} w.
Arguments statements {price} w.
Arguments logs {price} w.
Arguments entropy {price} w.
Arguments ret {price A} a w.
Arguments raise {price A} e w.
Arguments bind {price A B} m k w.
Arguments try_except {price A} body handler w.
Arguments for_each {price A S} xs loop_body s w.
Arguments logging {price} level msg w.
Arguments sqlite3_connect {price} w.
Arguments select {price} conn date campus w.
Arguments add_row {price} key r menu.
Arguments get_menu {price} campuses dates w.
Arguments line {price} format_2f icon v.
Arguments append_if_present {price} format_2f icon k menu msg.
Arguments append_matching {price} format_2f icon word menu msg.
Arguments format_menu_lines {price} format_2f menu.
Arguments format_menu {price} format_2f menu.
Arguments create_attachments {price} format_2f strftime_A_d_B menu.
Arguments refresh_and_retry {price} strftime_A_d_B api_call update_run
  chan campuses dates w.
Arguments recovery {price} strftime_A_d_B api_call update_run
  chan campuses dates found w.
Arguments reply {price} format_2f strftime_A_d_B api_call chan found w.
Arguments answer {price} format_2f strftime_A_d_B api_call update_run
  chan txt w.
Arguments process_message {price} format_2f strftime_A_d_B lower api_call
  update_run data w.

(** ** The campus codes of the plugin *)

(** Every campus code the classifier can return or the formatter has a
    colour for: the codes of [campus_options], the default of [get_campus]
    and the keys of [campus_colors], each once. *)
Definition campus_codes : list string :=
  nodup string_dec
    (map fst campus_options ++ default_campus ++ dict_keys campus_colors).

(** The categories [format_menu] has a rule for. *)
Definition recognized (k : string) : bool :=
  String.eqb k "soup" || String.eqb k "vegetarian" || String.eqb k "meat"
  || contains "grill" k || contains "pasta" k.

(** ** The layout of a formatted entry *)

(** The line of category [k], when the entry has it. *)
Definition line_of {price : Type} (format_2f : price -> string)
  (icon k : string) (menu : entry price) : list string :=
  match dict_get String.eqb k menu with
  | Some v => [line format_2f icon v]
  | None => []
  end.

(** The lines of the categories whose name contains [word], in the order of
    the keys of the entry. *)
Definition lines_matching {price : Type} (format_2f : price -> string)
  (icon word : string) (menu : entry price) : list string :=
  map (fun kv => line format_2f icon (snd kv))
    (filter (fun kv => contains word (fst kv)) menu).

(** The layout the specification gives for an entry: soup, vegetarian, meat,
    then the categories that contain "grill", then those that contain
    "pasta". *)
Definition lines_in_priority_order {price : Type}
  (format_2f : price -> string) (menu : entry price) : list string :=
  line_of format_2f ":tea:" "soup" menu
  ++ line_of format_2f ":tomato:" "vegetarian" menu
  ++ line_of format_2f ":poultry_leg:" "meat" menu
  ++ lines_matching format_2f ":meat_on_bone:" "grill" menu
  ++ lines_matching format_2f ":spaghetti:" "pasta" menu.

(** ** A concrete environment, for examples *)

(** Prices in cents, printed with two decimals. *)
Definition cents : Type := Z.

Definition digit (n : Z) : string :=
  String (ascii_of_nat (48 + Z.to_nat (n mod 10))) EmptyString.

Definition format_cents (c : cents) : string :=
  (digit (c / 1000) ++ digit (c / 100) ++ "." ++ digit (c / 10) ++ digit c)%string.

(** A day printed as its ordinal. *)
Definition strftime_ordinal (d : Z) : string :=
  (digit (d / 100000) ++ digit (d / 10000) ++ digit (d / 1000)
     ++ digit (d / 100) ++ digit (d / 10) ++ digit d)%string.

(** [s.lower()] on ASCII letters. *)
Definition lower_ascii (c : ascii) : ascii :=
  let n := nat_of_ascii c in
  if (Nat.leb 65 n && Nat.leb n 90)%bool then ascii_of_nat (n + 32) else c.

Fixpoint lower_string (s : string) : string :=
  match s with
  | EmptyString => EmptyString
  | String c s' => String (lower_ascii c) (lower_string s')
  end.

(** Monday 2 November 2026 and Wednesday 4 November 2026 as ordinals. *)
Definition monday_2026_11_02 : Z := 739922.
Definition wednesday_2026_11_04 : Z := 739924.

(** A world whose store knows one soup at Middelheim on that Monday and whose
    queries never fail. *)
Definition one_soup_store (date : Z) (campus : string)
  : result (list (row cents)) :=
  if (date =? monday_2026_11_02) && String.eqb campus "cmi"
  then Ok [("soup", ("tomato soup", 350, 420))]
  else Ok [].

Definition one_soup_world : world cents :=
  {| clock := monday_2026_11_02; store := one_soup_store;
     connections := []; next_connection := 0%nat; statements := [];
     logs := []; entropy := [] |}.

(** A world whose store has no table [menu]: every query raises. *)
Definition broken_world : world cents :=
  {| clock := monday_2026_11_02;
     store := fun _ _ =>
       Raise (Exn "OperationalError" "no such table: menu");
     connections := []; next_connection := 0%nat; statements := [];
     logs := []; entropy := [] |}.

(** A world whose store is empty. *)
Definition empty_world : world cents :=
  {| clock := monday_2026_11_02; store := fun _ _ => Ok [];
     connections := []; next_connection := 0%nat; statements := [];
     logs := []; entropy := [] |}.

(** A transport that accepts every message and a refresh job that fails. *)
Definition accepting_api_call (_ : request) : M cents response :=
  ret {| ok := Some true; error := None |}.

Definition failing_update_run : M cents unit :=
  raise (Exn "ConnectionError" "komida website unreachable").

(** An entry with two grill dishes, and the same entry with its categories
    stored in the other order. *)
Definition two_grills : entry cents :=
  [ ("grill", ("steak", 450, 560)); ("mixed grill", ("kebab", 400, 500)) ].

Definition two_grills_swapped : entry cents :=
  [ ("mixed grill", ("kebab", 400, 500)); ("grill", ("steak", 450, 560)) ].

(** An entry whose only category is named after both rules. *)
Definition pasta_from_the_grill : entry cents :=
  [ ("soup", ("tomato soup", 350, 420));
    ("grilled pasta", ("lasagne", 480, 590)) ].

(** ** The language of the lunch pattern *)

(** [n] copies of the character [c]. *)
Fixpoint repeat_char (c : ascii) (n : nat) : string :=
  match n with
  | O => EmptyString
  | S n' => String c (repeat_char c n')
  end.

(** A stretched "lunch!": the letters l, u, n, c, h and the exclamation mark,
    each repeated once more than the count given for it. *)
Definition stretched_lunch (l u n c h b : nat) : string :=
  (repeat_char "l" (S l) ++ repeat_char "u" (S u) ++ repeat_char "n" (S n)
     ++ repeat_char "c" (S c) ++ repeat_char "h" (S h)
     ++ repeat_char "!" (S b))%string.

(** * Properties *)

(** ** [sorted] *)

Section SortedFacts.
Context {A : Type}.
Variable leb : A -> A -> bool.
Hypothesis leb_total : forall x y, leb x y = false -> leb y x = true.

Let le (x y : A) : Prop := leb x y = true.

Lemma insert_sorted_perm (x : A) (l : list A) :
  Permutation (x :: l) (insert_sorted leb x l).
Proof.
  induction l as [|y l IH]; simpl.
  - apply Permutation_refl.
  - destruct (leb y x).
    + eapply perm_trans; [apply perm_swap|].
      now apply perm_skip.
    + apply Permutation_refl.
Qed.

Lemma insert_sorted_hdrel (a x : A) (l : list A) :
  le a x -> HdRel le a l -> HdRel le a (insert_sorted leb x l).
Proof.
  intros Hax Hal. destruct l as [|y l]; simpl.
  - now constructor.
  - inversion Hal; subst. destruct (leb y x); now constructor.
Qed.

Lemma insert_sorted_Sorted (x : A) (l : list A) :
  Sorted le l -> Sorted le (insert_sorted leb x l).
Proof.
  induction 1 as [|y l Hs IH Hhd]; simpl.
  - repeat constructor.
  - destruct (leb y x) eqn:E.
    + constructor; [exact IH|]. now apply insert_sorted_hdrel.
    + constructor; [now constructor|]. constructor. now apply leb_total.
Qed.

Lemma sorted_acc (xs acc : list A) :
  Sorted le acc ->
  Sorted le (fold_left (fun acc x => insert_sorted leb x acc) xs acc)
  /\ Permutation (acc ++ xs)
       (fold_left (fun acc x => insert_sorted leb x acc) xs acc).
Proof.
  revert acc. induction xs as [|x xs IH]; intros acc Hacc; simpl.
  - split; [exact Hacc|]. rewrite app_nil_r. apply Permutation_refl.
  - destruct (IH (insert_sorted leb x acc)) as [Hs Hp].
    { now apply insert_sorted_Sorted. }
    split; [exact Hs|].
    eapply perm_trans; [|exact Hp].
    eapply perm_trans; [apply Permutation_sym, Permutation_middle|].
    apply (Permutation_app_tail xs (insert_sorted_perm x acc)).
Qed.

Lemma sorted_Sorted (xs : list A) : Sorted le (sorted leb xs).
Proof. apply sorted_acc. constructor. Qed.

Lemma sorted_perm (xs : list A) : Permutation xs (sorted leb xs).
Proof. apply (sorted_acc xs []). constructor. Qed.
End SortedFacts.

Lemma Zleb_total (x y : Z) : (x <=? y) = false -> (y <=? x) = true.
Proof. intros H. apply Z.leb_gt in H. apply Z.leb_le. lia. Qed.

Lemma sorted_nonempty {A : Type} (leb : A -> A -> bool) (xs : list A) :
  nonempty (sorted leb xs) = nonempty xs.
Proof.
  pose proof (insert_sorted_perm leb) as Hins.
  assert (H : forall l acc,
             nonempty (fold_left (fun acc x => insert_sorted leb x acc) l acc)
             = nonempty acc || nonempty l).
  { induction l as [|x l IH]; intros acc; simpl.
    - now rewrite orb_false_r.
    - rewrite IH. rewrite orb_true_r.
      destruct acc as [|y acc]; simpl; [reflexivity|].
      now destruct (leb y x). }
  unfold sorted. now rewrite H.
Qed.

(** ** The classifier *)

Lemma weekday_range (d : Z) : 0 <= weekday d <= 6.
Proof. unfold weekday. pose proof (Z.mod_pos_bound (d + 6) 7). lia. Qed.

Lemma date_add_in_range (today n : Z) :
  date_min + 6 <= today <= date_max - 6 -> -6 <= n <= 6 ->
  date_add today n = Ok (today + n).
Proof.
  intros Ht Hn. unfold date_add.
  replace (date_min <=? today + n) with true by (symmetry; apply Z.leb_le; lia).
  replace (today + n <=? date_max) with true by (symmetry; apply Z.leb_le; lia).
  reflexivity.
Qed.

Lemma comprehension_total {A B : Type} (f : A -> result B) (g : A -> B)
  (xs : list A) :
  (forall x, In x xs -> f x = Ok (g x)) ->
  comprehension f xs = Ok (map g xs).
Proof.
  induction xs as [|x xs IH]; intros H; simpl; [reflexivity|].
  rewrite (H x) by now left.
  rewrite IH by (intros y Hy; apply H; now right).
  reflexivity.
Qed.

Lemma date_options_offsets (today : Z) (o : string * Z) :
  In o (date_options today) -> -6 <= snd o <= 6.
Proof.
  pose proof (weekday_range today) as Hw.
  unfold date_options, In.
  intros H. repeat (destruct H as [<-|H]; [cbn [snd]; lia|]). contradiction.
Qed.

(** Away from the first and last week of the calendar [get_date] returns: the
    sorted candidates, or today when there is none. *)
Lemma get_date_returns (today : Z) (text : string) :
  date_min + 6 <= today <= date_max - 6 ->
  get_date today text =
  Ok (if nonempty (candidate_dates today text)
      then sorted Z.leb (candidate_dates today text)
      else [today]).
Proof.
  intros Ht. unfold get_date.
  rewrite (comprehension_total _ (fun o => today + snd o)).
  - fold (candidate_dates today text). cbv zeta. rewrite sorted_nonempty.
    reflexivity.
  - intros o Ho. apply filter_In in Ho as [Ho _].
    apply date_add_in_range; [exact Ht|].
    now apply (date_options_offsets today).
Qed.

Lemma Sorted_leb_le (l : list Z) :
  Sorted (fun x y => (x <=? y) = true) l -> Sorted Z.le l.
Proof.
  induction 1 as [|x l Hs IH Hhd]; constructor; [exact IH|].
  destruct Hhd; constructor. now apply Z.leb_le.
Qed.

Lemma nonempty_In {A : Type} (x : A) (l : list A) : In x l -> nonempty l = true.
Proof. destruct l; [contradiction|reflexivity]. Qed.

Lemma comprehension_Ok {A B : Type} (f : A -> result B) (g : A -> B)
  (xs : list A) (ys : list B) :
  (forall x y, f x = Ok y -> y = g x) ->
  comprehension f xs = Ok ys -> ys = map g xs.
Proof.
  intros Hf. revert ys. induction xs as [|x xs IH]; intros ys; cbn.
  - intros H. now injection H as <-.
  - destruct (f x) as [y|e] eqn:E; [|discriminate].
    destruct (comprehension f xs) as [ys'|e]; [|discriminate].
    intros H. injection H as <-.
    now rewrite (Hf x y E), (IH ys' eq_refl).
Qed.

Lemma date_add_Ok (today n d : Z) : date_add today n = Ok d -> d = today + n.
Proof.
  unfold date_add.
  destruct ((date_min <=? today + n) && (today + n <=? date_max));
    [|discriminate].
  intros H. now injection H as <-.
Qed.

(** Whenever [get_date] returns, it returns the sorted candidates, or today
    when there is none. *)
Lemma get_date_Ok (today : Z) (text : string) (dates : list Z) :
  get_date today text = Ok dates ->
  dates = if nonempty (candidate_dates today text)
          then sorted Z.leb (candidate_dates today text)
          else [today].
Proof.
  unfold get_date.
  destruct (comprehension _ _) as [ds|e] eqn:E; [|discriminate].
  apply (comprehension_Ok _ (fun o => today + snd o)) in E.
  - fold (candidate_dates today text) in E. subst ds. cbv zeta.
    rewrite sorted_nonempty. intros H. now injection H as <-.
  - intros o d. apply date_add_Ok.
Qed.

(** C1, as amended: whenever [get_date] returns, the list of dates is sorted
    ascending and is not empty; it is not made duplicate-free: when some
    keyword matched, the list holds one date per matched keyword (it is a
    permutation of the candidate dates), so a date that two keywords resolve
    to appears twice.  Away from the first and last week of the calendar of
    [datetime], [get_date] returns. *)
Theorem get_date_sorted_not_deduplicated (today : Z) (text : string) :
  (forall dates,
      get_date today text = Ok dates ->
      Sorted Z.le dates
      /\ dates <> []
      /\ (candidate_dates today text <> [] ->
          Permutation (candidate_dates today text) dates))
  /\ (date_min + 6 <= today <= date_max - 6 ->
      exists dates, get_date today text = Ok dates).
Proof.
  split.
  - intros dates H. apply get_date_Ok in H. subst dates.
    destruct (candidate_dates today text) as [|d ds] eqn:E.
    + cbn [nonempty]. repeat split.
      * repeat constructor.
      * discriminate.
      * intros H. now contradiction H.
    + cbn [nonempty].
      pose proof (sorted_perm Z.leb Zleb_total (d :: ds)) as Hp.
      repeat split.
      * apply Sorted_leb_le, sorted_Sorted, Zleb_total.
      * intros Hnil. rewrite Hnil in Hp.
        apply Permutation_sym, Permutation_nil in Hp. discriminate.
      * intros _. exact Hp.
  - intros Ht. rewrite (get_date_returns today text Ht). now eexists.
Qed.

Lemma get_date_sorted_not_deduplicated_witness :
  Sorted Z.le [monday_2026_11_02; monday_2026_11_02]
  /\ exists dates, get_date monday_2026_11_02 "today monday" = Ok dates.
Proof.
  destruct (get_date_sorted_not_deduplicated monday_2026_11_02 "today monday")
    as [Hsorted Hreturns].
  split.
  - apply (Hsorted [monday_2026_11_02; monday_2026_11_02] eq_refl).
  - apply Hreturns. unfold date_min, date_max, monday_2026_11_02. lia.
Defined.

(** C1, refuted as stated: on a Monday the text "today monday" matches two
    keywords that both resolve to today, and [get_date] returns today
    twice. *)
Lemma get_date_today_monday_twice :
  exists dates,
    get_date monday_2026_11_02 "today monday" = Ok dates
    /\ ~ NoDup dates.
Proof.
  exists [monday_2026_11_02; monday_2026_11_02]. split.
  - vm_compute. reflexivity.
  - intros H. inversion H as [|x l Hnotin _]; subst.
    apply Hnotin. now left.
Qed.

(** C2: whenever [get_date] returns, every name of a day of the week that
    occurs in the text has put the date [today + (index - today.weekday())]
    in the result, index 0 being Monday; the offset is negative for a day
    earlier in the week: on a Wednesday the text "monday" yields exactly the
    date two days before today.  Away from the first and last week of the
    calendar of [datetime], [get_date] returns. *)
Theorem get_date_weekday_offset (today : Z) :
  (forall text i name dates,
      nth_error weekday_names i = Some name ->
      contains name text = true ->
      get_date today text = Ok dates ->
      In (today + (Z.of_nat i - weekday today)) dates)
  /\ (date_min <= today <= date_max -> weekday today = 2 ->
      get_date today "monday" = Ok [today - 2])
  /\ (date_min + 6 <= today <= date_max - 6 ->
      forall text, exists dates, get_date today text = Ok dates).
Proof.
  split; [|split].
  - intros text i name dates Hn Hc Hrun.
    assert (Hin : In (name, Z.of_nat i - weekday today) (date_options today)).
    { unfold date_options.
      do 7 (destruct i as [|i];
            [injection Hn as <-; cbn [Z.of_nat Pos.of_succ_nat Pos.succ In];
             auto 20|]).
      destruct i; discriminate. }
    assert (Hcand : In (today + (Z.of_nat i - weekday today))
                      (candidate_dates today text)).
    { unfold candidate_dates.
      apply (in_map (fun o => today + snd o) _
               (name, Z.of_nat i - weekday today)).
      apply filter_In. split; [exact Hin|exact Hc]. }
    rewrite (get_date_Ok today text dates Hrun).
    rewrite (nonempty_In _ _ Hcand).
    eapply Permutation_in; [apply (sorted_perm Z.leb Zleb_total)|exact Hcand].
  - intros Ht Hw.
    assert (E : get_date today "monday"
                = match date_add today (0 - weekday today) with
                  | Ok d => Ok [d]
                  | Raise e => Raise e
                  end).
    { unfold get_date.
      change (filter (fun o => contains (fst o) "monday") (date_options today))
        with [("monday", 0 - weekday today)].
      cbn [comprehension snd]. now destruct (date_add today _). }
    rewrite E, Hw. unfold date_add.
    assert (H3 : 3 <= today).
    { unfold weekday, date_min in *.
      pose proof (Z.div_mod (today + 6) 7). lia. }
    replace (date_min <=? today + (0 - 2)) with true
      by (symmetry; apply Z.leb_le; unfold date_min; lia).
    replace (today + (0 - 2) <=? date_max) with true
      by (symmetry; apply Z.leb_le; lia).
    cbn [andb]. replace (today + (0 - 2)) with (today - 2) by lia.
    reflexivity.
  - intros Ht text. rewrite (get_date_returns today text Ht). now eexists.
Qed.

Lemma get_date_weekday_offset_witness :
  In (wednesday_2026_11_04 + (Z.of_nat 0 - weekday wednesday_2026_11_04))
    [monday_2026_11_02;
     wednesday_2026_11_04 + 3]
  /\ get_date wednesday_2026_11_04 "monday" = Ok [wednesday_2026_11_04 - 2]
  /\ exists dates, get_date wednesday_2026_11_04 "see you monday" = Ok dates.
Proof.
  destruct (get_date_weekday_offset wednesday_2026_11_04)
    as (Hoffset & Hmonday & Hreturns).
  split; [|split].
  - apply (Hoffset "monday or saturday" 0%nat "monday");
      vm_compute; reflexivity.
  - apply Hmonday; [|reflexivity].
    unfold date_min, date_max, wednesday_2026_11_04. lia.
  - apply Hreturns. unfold date_min, date_max, wednesday_2026_11_04. lia.
Defined.

(** The aliases of all campuses, as [campus_options] lists them. *)
Lemma campus_aliases :
  List.concat (map snd campus_options)
  = ["cde"; "drie eiken"; "cgb"; "groenenborger"; "cmi"; "middelheim";
     "cst"; "stad"; "city"].
Proof. reflexivity. Qed.

(** Case analysis on which campuses of [campus_options] the text mentions. *)
Ltac campus_cases text :=
  unfold get_campus, campus_options; cbn [filter snd];
  destruct (any (fun c_text => contains c_text text) ["cde"; "drie eiken"]);
  destruct (any (fun c_text => contains c_text text) ["cgb"; "groenenborger"]);
  destruct (any (fun c_text => contains c_text text) ["cmi"; "middelheim"]);
  destruct (any (fun c_text => contains c_text text) ["cst"; "stad"; "city"]).

(** C8: a text that contains none of the campus aliases gives exactly
    [['cmi']]; for every text the result of [get_campus] has at least one
    campus code and is sorted in the lexicographic order of strings. *)
Theorem get_campus_default_sorted (text : string) :
  ((forall alias, In alias (List.concat (map snd campus_options)) ->
                  contains alias text = false) ->
   get_campus text = ["cmi"])
  /\ get_campus text <> []
  /\ StronglySorted (fun a b => String.leb a b = true) (get_campus text).
Proof.
  split; [|split].
  - intros H. rewrite campus_aliases in H.
    unfold get_campus, campus_options, any.
    cbn [filter snd existsb].
    rewrite !H by (cbn [In]; auto 20).
    reflexivity.
  - campus_cases text;
      match goal with
      | |- ?l <> [] =>
          let l' := eval vm_compute in l in change (l' <> [])
      end;
      discriminate.
  - campus_cases text;
      match goal with
      | |- StronglySorted ?R ?l =>
          let l' := eval vm_compute in l in change (StronglySorted R l')
      end;
      repeat constructor.
Qed.

(** "lunch!" names no campus. *)
Lemma lunch_names_no_campus (alias : string) :
  In alias (List.concat (map snd campus_options)) ->
  contains alias "lunch!" = false.
Proof.
  rewrite campus_aliases. cbn [In].
  intros H. repeat (destruct H as [<-|H]; [reflexivity|]). contradiction.
Qed.

Lemma get_campus_default_sorted_witness :
  get_campus "lunch!" = ["cmi"]
  /\ get_campus "lunch!" <> []
  /\ StronglySorted (fun a b => String.leb a b = true) (get_campus "lunch!").
Proof.
  destruct (get_campus_default_sorted "lunch!") as [Hdefault Hrest].
  split; [apply Hdefault; exact lunch_names_no_campus|exact Hrest].
Defined.

(** C3, refuted as stated: the campus codes of the classifier and of the
    formatter, the default included, are not five. *)
Lemma campus_codes_not_five : List.length campus_codes <> 5%nat.
Proof. vm_compute. discriminate. Qed.

(** C3, as amended: the campus codes are closed and fixed at four entries,
    cde, cgb, cmi and cst.  [get_campus] returns no other code and returns
    each of the four; they are exactly the codes [campus_colors] has a
    colour for; the default of [get_campus] is one of the four and not a
    fifth entry. *)
Theorem campus_codes_four :
  campus_codes = ["cde"; "cgb"; "cmi"; "cst"]
  /\ (forall text c, In c (get_campus text) -> In c campus_codes)
  /\ (forall c, In c campus_codes -> get_campus c = [c])
  /\ (forall c, In c campus_codes <->
                dict_mem String.eqb c campus_colors = true)
  /\ (forall c, In c default_campus -> In c (map fst campus_options)).
Proof.
  assert (E : campus_codes = ["cde"; "cgb"; "cmi"; "cst"]) by reflexivity.
  rewrite E. split; [reflexivity|]. split; [|split; [|split]].
  - intros text c. campus_cases text; cbv; tauto.
  - intros c H. cbn [In] in H.
    repeat (destruct H as [<-|H]; [reflexivity|]). contradiction.
  - intros c. split.
    + intros H. cbn [In] in H.
      repeat (destruct H as [<-|H]; [reflexivity|]). contradiction.
    + unfold dict_mem, campus_colors. cbn [dict_get In].
      destruct (String.eqb c "cde") eqn:E1;
        [apply String.eqb_eq in E1; auto|].
      destruct (String.eqb c "cgb") eqn:E2;
        [apply String.eqb_eq in E2; auto|].
      destruct (String.eqb c "cmi") eqn:E3;
        [apply String.eqb_eq in E3; auto|].
      destruct (String.eqb c "cst") eqn:E4;
        [apply String.eqb_eq in E4; auto 6|].
      discriminate.
  - intros c H. cbn [In default_campus] in H.
    destruct H as [<-|[]]. cbn. auto.
Qed.

Lemma campus_codes_four_witness :
  In "cmi" (get_campus "lunch!") /\ In "cmi" campus_codes.
Proof.
  assert (H : In "cmi" (get_campus "lunch!")) by (vm_compute; auto).
  split; [exact H|].
  exact (proj1 (proj2 campus_codes_four) "lunch!" "cmi" H).
Defined.

(** ** The menu repository *)

Lemma key_eqb_eq (a b : Z * string) : key_eqb a b = true -> a = b.
Proof.
  destruct a as [d c], b as [d' c']. unfold key_eqb. cbn [fst snd].
  intros H. apply andb_true_iff in H as [Hd Hc].
  apply Z.eqb_eq in Hd. apply String.eqb_eq in Hc. now subst.
Qed.

Lemma dict_set_not_nil {K V : Type} (eqb : K -> K -> bool) (k : K) (v : V)
  (d : list (K * V)) : dict_set eqb k v d <> [].
Proof.
  destruct d as [|[k' v'] d]; cbn [dict_set]; [discriminate|].
  destruct (eqb k k'); discriminate.
Qed.

Lemma dict_set_In {K V : Type} (eqb : K -> K -> bool) (k k0 : K) (v v0 : V)
  (d : list (K * V)) :
  (forall a b, eqb a b = true -> a = b) ->
  In (k0, v0) (dict_set eqb k v d) -> In (k0, v0) d \/ (k0 = k /\ v0 = v).
Proof.
  intros Heq. induction d as [|[k' v'] d IH]; cbn [dict_set].
  - intros [H|[]]. injection H as <- <-. now right.
  - destruct (eqb k k') eqn:E.
    + apply Heq in E. subst k'. intros [H|H].
      * injection H as <- <-. now right.
      * left. now right.
    + intros [H|H].
      * left. now left.
      * destruct (IH H) as [H'|H']; [left; now right|now right].
Qed.

Section RepositoryFacts.
Context {price : Type}.

(** One turn of the loop of [get_menu] on connection [conn], lines 75-77. *)
Let turn (conn : nat) (key : Z * string) (menu : menus price)
  : M price (menus price) :=
  bind (select conn (fst key) (snd key))
    (fun rows => ret (fold_left (fun m r => add_row key r m) rows menu)).

Lemma get_menu_unfold (campuses : list string) (dates : list Z)
  (w : world price) :
  get_menu campuses dates w
  = for_each (list_prod dates campuses) (turn (next_connection w)) []
      (snd (sqlite3_connect w)).
Proof. reflexivity. Qed.

(** The world after the statement of one turn was executed. *)
Let executed (conn : nat) (key : Z * string) (w : world price)
  : world price :=
  snd (select conn (fst key) (snd key) w).

Lemma loop_step (conn : nat) (key : Z * string) (keys : list (Z * string))
  (menu : menus price) (w : world price) :
  for_each (key :: keys) (turn conn) menu w
  = match store w (fst key) (snd key) with
    | Ok rows =>
        for_each keys (turn conn)
          (fold_left (fun m r => add_row key r m) rows menu)
          (executed conn key w)
    | Raise e => (Raise e, executed conn key w)
    end.
Proof.
  cbn [for_each]. unfold bind at 1. unfold turn at 1.
  unfold bind, select, ret, executed. cbn [snd select].
  destruct (store w (fst key) (snd key)); reflexivity.
Qed.

(** The loop reads the store and records its statements; it touches
    nothing else, whether it ends normally or by an exception. *)
Lemma loop_frame (conn : nat) (keys : list (Z * string))
  (menu : menus price) (w : world price) :
  let w' := snd (for_each keys (turn conn) menu w) in
  store w' = store w
  /\ connections w' = connections w
  /\ next_connection w' = next_connection w
  /\ clock w' = clock w /\ logs w' = logs w /\ entropy w' = entropy w
  /\ exists done,
      statements w'
      = statements w ++ map (fun k => (conn, fst k, snd k)) done
      /\ (exists rest, keys = done ++ rest).
Proof.
  cbv zeta. revert menu w. induction keys as [|key keys IH]; intros menu w.
  - cbn. repeat split. exists []. cbn. rewrite app_nil_r.
    split; [reflexivity|now exists []].
  - rewrite loop_step.
    destruct (store w (fst key) (snd key)) as [rows|e] eqn:E.
    + destruct (IH (fold_left (fun m r => add_row key r m) rows menu)
                  (executed conn key w))
        as (H1 & H2 & H3 & H4 & H5 & H6 & done & H7 & rest & H8).
      repeat (split; [assumption|]).
      exists (key :: done). split.
      * rewrite H7. unfold executed. cbn [select snd statements map].
        rewrite <- app_assoc. reflexivity.
      * exists rest. now rewrite H8.
    + cbn. repeat split. exists [key]. split; [reflexivity|].
      now exists keys.
Qed.

Section Invariant.
Variable good : Z * string -> Prop.

(** Every entry of the mapping has an item and a key that is [good]. *)
Let inv (menu : menus price) : Prop :=
  forall key e, In (key, e) menu -> e <> [] /\ good key.

Lemma add_row_inv (key : Z * string) (r : row price)
  (menu : menus price) :
  good key -> inv menu -> inv (add_row key r menu).
Proof.
  intros Hgood Hinv k e Hin. unfold add_row in Hin.
  apply (dict_set_In key_eqb) in Hin; [|exact key_eqb_eq].
  destruct Hin as [Hin|[-> ->]].
  - now apply Hinv.
  - split; [apply dict_set_not_nil|exact Hgood].
Qed.

Lemma add_rows_inv (key : Z * string) (rows : list (row price))
  (menu : menus price) :
  (rows <> [] -> good key) -> inv menu ->
  inv (fold_left (fun m r => add_row key r m) rows menu).
Proof.
  revert menu. induction rows as [|r rows IH]; intros menu Hgood Hinv.
  - exact Hinv.
  - cbn [fold_left]. assert (Hk : good key) by (apply Hgood; discriminate).
    apply IH; [intros _; exact Hk|].
    now apply add_row_inv.
Qed.

Lemma loop_inv (conn : nat) (keys : list (Z * string))
  (menu found : menus price) (w w' : world price) :
  (forall key rows,
      In key keys -> store w (fst key) (snd key) = Ok rows ->
      rows <> [] -> good key) ->
  inv menu ->
  for_each keys (turn conn) menu w = (Ok found, w') ->
  inv found.
Proof.
  revert menu w. induction keys as [|key keys IH]; intros menu w Hg Hinv.
  - cbn. intros H. injection H as <- _. exact Hinv.
  - rewrite loop_step.
    destruct (store w (fst key) (snd key)) as [rows|e] eqn:E;
      [|discriminate].
    apply IH.
    + intros k rs Hk. apply Hg. now right.
    + apply add_rows_inv; [|exact Hinv].
      apply (Hg key rows); [now left|exact E].
Qed.
End Invariant.

(** When no query raises, [get_menu] returns. *)
Lemma loop_returns (conn : nat) (keys : list (Z * string))
  (menu : menus price) (w : world price) :
  (forall key, In key keys ->
               exists rows, store w (fst key) (snd key) = Ok rows) ->
  exists found w', for_each keys (turn conn) menu w = (Ok found, w').
Proof.
  revert menu w. induction keys as [|key keys IH]; intros menu w Hok.
  - cbn. now eexists _, _.
  - rewrite loop_step.
    destruct (Hok key) as [rows E]; [now left|]. rewrite E.
    apply IH. intros k Hk. apply Hok. now right.
Qed.

Lemma get_menu_returns (campuses : list string) (dates : list Z)
  (w : world price) :
  (forall date campus, In date dates -> In campus campuses ->
                       exists rows, store w date campus = Ok rows) ->
  exists found w', get_menu campuses dates w = (Ok found, w').
Proof.
  intros Hok. rewrite get_menu_unfold. apply loop_returns.
  cbn [sqlite3_connect snd store]. intros [d c] Hin.
  apply in_prod_iff in Hin as [Hd Hc]. now apply Hok.
Qed.
End RepositoryFacts.

(** C4, refuted as stated: [get_menu] leaves the connection it opened in the
    world, both when it returns and when a query raises. *)
Lemma get_menu_leaves_connection_open :
  (exists found,
      fst (get_menu ["cmi"] [monday_2026_11_02] one_soup_world) = Ok found)
  /\ connections (snd (get_menu ["cmi"] [monday_2026_11_02] one_soup_world))
     <> connections one_soup_world
  /\ (exists e,
         fst (get_menu ["cmi"] [monday_2026_11_02] broken_world) = Raise e)
  /\ connections (snd (get_menu ["cmi"] [monday_2026_11_02] broken_world))
     <> connections broken_world.
Proof.
  repeat split.
  - eexists. vm_compute. reflexivity.
  - vm_compute. discriminate.
  - eexists. vm_compute. reflexivity.
  - vm_compute. discriminate.
Qed.

(** C4, as amended: [get_menu] is read-only with respect to the store and
    opens one new connection per call, on which all its statements run, every
    one of them a [SELECT] for a pair of the product of dates and campuses;
    it does not release that connection: on every exit path, an exception of
    a query included, the connection is still among the open ones when
    [get_menu] is left, and the connections open before the call are
    untouched.  The new connection is fresh when earlier handles are below
    [next_connection]. *)
Theorem get_menu_read_only_connection_kept {price : Type}
  (campuses : list string) (dates : list Z) (w : world price) :
  let w' := snd (get_menu campuses dates w) in
  store w' = store w
  /\ connections w' = next_connection w :: connections w
  /\ (Forall (fun c => (c < next_connection w)%nat) (connections w) ->
      ~ In (next_connection w) (connections w))
  /\ exists done,
      statements w'
      = statements w ++ map (fun k => (next_connection w, fst k, snd k)) done
      /\ exists rest, list_prod dates campuses = done ++ rest.
Proof.
  cbv zeta. rewrite get_menu_unfold.
  destruct (loop_frame (next_connection w) (list_prod dates campuses) []
              (snd (sqlite3_connect w)))
    as (H1 & H2 & _ & _ & _ & _ & H7).
  cbn [sqlite3_connect snd store connections statements] in H1, H2, H7.
  repeat split; try assumption.
  intros Hall Hin. rewrite Forall_forall in Hall.
  specialize (Hall _ Hin). lia.
Qed.

Lemma get_menu_read_only_connection_kept_witness :
  connections (snd (get_menu ["cmi"] [monday_2026_11_02] broken_world))
  = [0%nat]
  /\ ~ In 0%nat (connections broken_world).
Proof.
  destruct (get_menu_read_only_connection_kept
              ["cmi"] [monday_2026_11_02] broken_world)
    as (_ & Hconn & Hfresh & _).
  split; [exact Hconn|].
  apply Hfresh. constructor.
Defined.

(** C5: in the mapping [get_menu] returns, every key is a pair of the
    product of dates and campuses whose query returned at least one row, and
    no entry has an empty set of items. *)
Theorem get_menu_entries_have_rows {price : Type}
  (campuses : list string) (dates : list Z) (w w' : world price)
  (found : menus price) :
  get_menu campuses dates w = (Ok found, w') ->
  forall key e,
    In (key, e) found ->
    e <> []
    /\ In key (list_prod dates campuses)
    /\ exists rows, store w (fst key) (snd key) = Ok rows /\ rows <> [].
Proof.
  rewrite get_menu_unfold. intros Hrun.
  refine (loop_inv
            (fun key =>
               In key (list_prod dates campuses)
               /\ exists rows,
                   store w (fst key) (snd key) = Ok rows /\ rows <> [])
            _ _ _ _ _ _ _ _ Hrun).
  - cbn [sqlite3_connect snd store]. intros key rows Hin Hrows Hne.
    split; [exact Hin|]. now exists rows.
  - intros key e [].
Qed.

Lemma get_menu_entries_have_rows_witness :
  [("soup", ("tomato soup", 350, 420))] <> ([] : entry cents)
  /\ In (monday_2026_11_02, "cmi")
       (list_prod [monday_2026_11_02; wednesday_2026_11_04] ["cde"; "cmi"])
  /\ exists rows,
      store one_soup_world monday_2026_11_02 "cmi" = Ok rows /\ rows <> [].
Proof.
  apply (get_menu_entries_have_rows
           ["cde"; "cmi"] [monday_2026_11_02; wednesday_2026_11_04]
           one_soup_world
           (snd (get_menu ["cde"; "cmi"]
                   [monday_2026_11_02; wednesday_2026_11_04] one_soup_world))
           [((monday_2026_11_02, "cmi"),
             [("soup", ("tomato soup", 350, 420))])]
           eq_refl (monday_2026_11_02, "cmi")).
  left. reflexivity.
Defined.

(** ** The menu formatter *)

Section FormatterFacts.
Context {price : Type}.
Variable format_2f : price -> string.

(** Looking a key up gives the value stored with it. *)
Let consistent (m : entry price) : Prop :=
  forall k v, In (k, v) m -> dict_get String.eqb k m = Some v.

Lemma dict_get_Some_In (k : string) (v : item price) (m : entry price) :
  dict_get String.eqb k m = Some v -> In (k, v) m.
Proof.
  induction m as [|[k' v'] m IH]; cbn [dict_get]; [discriminate|].
  destruct (String.eqb k k') eqn:E.
  - apply String.eqb_eq in E. subst k'. intros H. injection H as <-.
    now left.
  - intros H. right. now apply IH.
Qed.

Lemma NoDup_keys_consistent (m : entry price) :
  NoDup (dict_keys m) -> consistent m.
Proof.
  unfold consistent, dict_keys.
  induction m as [|[k' v'] m IH]; intros Hnd k v Hin; [contradiction|].
  cbn [map fst] in Hnd. inversion Hnd as [|? ? Hnotin Hnd']; subst.
  cbn [dict_get]. destruct (String.eqb k k') eqn:E.
  - apply String.eqb_eq in E. subst k'.
    destruct Hin as [Hin|Hin]; [now injection Hin as <-|].
    exfalso. apply Hnotin. now apply (in_map fst _ (k, v)).
  - destruct Hin as [Hin|Hin].
    + injection Hin as <- <-. now rewrite String.eqb_refl in E.
    + now apply IH.
Qed.

Lemma append_if_present_line_of (icon k : string) (m : entry price)
  (msg : list string) :
  append_if_present format_2f icon k m msg
  = msg ++ line_of format_2f icon k m.
Proof.
  unfold append_if_present, line_of, dict_mem.
  destruct (dict_get String.eqb k m); [reflexivity|].
  now rewrite app_nil_r.
Qed.

Lemma fold_matching (icon word : string) (m l : entry price)
  (msg : list string) :
  (forall k v, In (k, v) l -> dict_get String.eqb k m = Some v) ->
  fold_left
    (fun msg key =>
       if contains word key then
         match dict_get String.eqb key m with
         | Some v => msg ++ [line format_2f icon v]
         | None => msg
         end
       else msg)
    (dict_keys l) msg
  = msg ++ lines_matching format_2f icon word l.
Proof.
  unfold lines_matching, dict_keys. revert msg.
  induction l as [|[k v] l IH]; intros msg Hl; cbn [map fst fold_left filter].
  - now rewrite app_nil_r.
  - rewrite IH by (intros k0 v0 H0; apply Hl; now right).
    destruct (contains word k); [|reflexivity].
    rewrite (Hl k v) by now left.
    cbn [map snd]. now rewrite <- app_assoc.
Qed.

Lemma append_matching_lines (icon word : string) (m : entry price)
  (msg : list string) :
  consistent m ->
  append_matching format_2f icon word m msg
  = msg ++ lines_matching format_2f icon word m.
Proof. intros Hm. unfold append_matching. now apply fold_matching. Qed.

(** The list [format_menu] builds has the layout of the specification. *)
Lemma format_menu_lines_layout (m : entry price) :
  consistent m ->
  format_menu_lines format_2f m = lines_in_priority_order format_2f m.
Proof.
  intros Hm. unfold format_menu_lines, lines_in_priority_order. cbv zeta.
  rewrite !append_matching_lines by exact Hm.
  rewrite !append_if_present_line_of.
  cbn [app]. now rewrite <- !app_assoc.
Qed.

Lemma dict_get_permutation (k : string) (m m' : entry price) :
  NoDup (dict_keys m) -> Permutation m m' ->
  dict_get String.eqb k m = dict_get String.eqb k m'.
Proof.
  intros Hnd Hp.
  assert (Hnd' : NoDup (dict_keys m')).
  { eapply Permutation_NoDup; [|exact Hnd]. now apply Permutation_map. }
  destruct (dict_get String.eqb k m) as [v|] eqn:E.
  - symmetry. apply NoDup_keys_consistent; [exact Hnd'|].
    eapply Permutation_in; [exact Hp|]. now apply dict_get_Some_In.
  - destruct (dict_get String.eqb k m') as [v|] eqn:E'; [|reflexivity].
    apply dict_get_Some_In in E'.
    apply (Permutation_in _ (Permutation_sym Hp)) in E'.
    apply (NoDup_keys_consistent m Hnd) in E'. congruence.
Qed.

Lemma dict_get_filter (p : string -> bool) (k : string) (m : entry price) :
  p k = true ->
  dict_get String.eqb k (filter (fun kv => p (fst kv)) m)
  = dict_get String.eqb k m.
Proof.
  intros Hp. induction m as [|[k' v'] m IH]; [reflexivity|].
  cbn [filter fst dict_get]. destruct (String.eqb k k') eqn:E.
  - apply String.eqb_eq in E. subst k'. rewrite Hp. cbn [dict_get].
    now rewrite String.eqb_refl.
  - destruct (p k'); [cbn [dict_get]; rewrite E|]; exact IH.
Qed.

Lemma filter_within {A : Type} (p q : A -> bool) (l : list A) :
  (forall x, q x = true -> p x = true) ->
  filter q (filter p l) = filter q l.
Proof.
  intros Hpq. induction l as [|x l IH]; [reflexivity|].
  cbn [filter]. destruct (p x) eqn:Ep.
  - cbn [filter]. now rewrite IH.
  - destruct (q x) eqn:Eq; [|exact IH].
    apply Hpq in Eq. congruence.
Qed.

Lemma lines_in_priority_order_recognized (m : entry price) :
  lines_in_priority_order format_2f
    (filter (fun kv => recognized (fst kv)) m)
  = lines_in_priority_order format_2f m.
Proof.
  unfold lines_in_priority_order, line_of, lines_matching.
  rewrite !(dict_get_filter recognized) by reflexivity.
  rewrite !(filter_within (fun kv => recognized (fst kv))); [reflexivity| |].
  - intros [k v] H. cbn [fst] in *. unfold recognized.
    rewrite H. now rewrite !orb_true_r.
  - intros [k v] H. cbn [fst] in *. unfold recognized.
    rewrite H. now rewrite !orb_true_r.
Qed.

Lemma consistent_filter (p : string -> bool) (m : entry price) :
  consistent m -> consistent (filter (fun kv => p (fst kv)) m).
Proof.
  intros Hm k v Hin. apply filter_In in Hin as [Hin Hp]. cbn [fst] in Hp.
  rewrite dict_get_filter by exact Hp. now apply Hm.
Qed.
End FormatterFacts.

(** C6, refuted as stated: two entries that hold the same two grill
    categories, stored in opposite orders, are formatted differently. *)
Lemma format_menu_depends_on_key_order :
  Permutation two_grills two_grills_swapped
  /\ NoDup (dict_keys two_grills)
  /\ format_menu format_cents two_grills
     <> format_menu format_cents two_grills_swapped.
Proof.
  split; [apply perm_swap|]. split.
  - unfold two_grills. cbn. repeat constructor; cbn; intuition discriminate.
  - vm_compute. discriminate.
Qed.

(** C6, as amended: the lines of an entry come in the fixed priority order
    soup, vegetarian, meat, then the categories that contain "grill", then
    those that contain "pasta"; within the grill lines and within the pasta
    lines the order is the order of the keys of the entry, so the output is
    the same for two orders of the categories that agree on the grill
    categories and on the pasta categories; categories that match none of the
    rules contribute no line. *)
Theorem format_menu_priority_order {price : Type}
  (format_2f : price -> string) (m : entry price) :
  NoDup (dict_keys m) ->
  format_menu_lines format_2f m = lines_in_priority_order format_2f m
  /\ (forall m',
         Permutation m m' ->
         filter (fun kv => contains "grill" (fst kv)) m
         = filter (fun kv => contains "grill" (fst kv)) m' ->
         filter (fun kv => contains "pasta" (fst kv)) m
         = filter (fun kv => contains "pasta" (fst kv)) m' ->
         format_menu format_2f m' = format_menu format_2f m)
  /\ format_menu format_2f (filter (fun kv => recognized (fst kv)) m)
     = format_menu format_2f m.
Proof.
  intros Hnd.
  pose proof (NoDup_keys_consistent m Hnd) as Hm.
  split; [now apply format_menu_lines_layout|]. split.
  - intros m' Hp Hgrill Hpasta.
    assert (Hnd' : NoDup (dict_keys m')).
    { eapply Permutation_NoDup; [|exact Hnd]. now apply Permutation_map. }
    unfold format_menu.
    rewrite !format_menu_lines_layout
      by (apply NoDup_keys_consistent; assumption).
    unfold lines_in_priority_order, line_of, lines_matching.
    rewrite <- !(dict_get_permutation _ m m' Hnd Hp).
    now rewrite <- Hgrill, <- Hpasta.
  - unfold format_menu.
    rewrite (format_menu_lines_layout format_2f m Hm).
    rewrite format_menu_lines_layout
      by (apply (consistent_filter recognized); exact Hm).
    now rewrite lines_in_priority_order_recognized.
Qed.

Lemma format_menu_priority_order_witness :
  format_menu_lines format_cents pasta_from_the_grill
  = lines_in_priority_order format_cents pasta_from_the_grill
  /\ format_menu format_cents
       (filter (fun kv => recognized (fst kv)) pasta_from_the_grill)
     = format_menu format_cents pasta_from_the_grill.
Proof.
  assert (Hnd : NoDup (dict_keys pasta_from_the_grill)).
  { unfold pasta_from_the_grill. cbn.
    repeat constructor; cbn; intuition discriminate. }
  destruct (format_menu_priority_order format_cents pasta_from_the_grill Hnd)
    as (Hlayout & _ & Hrecognized).
  split; [exact Hlayout|exact Hrecognized].
Defined.



(** ** The bot controller *)

(** C9: a message that passes the bot filter and carries a text but has no
    channel makes [process_message] raise [AttributeError] at the channel
    check; the world is left as it was: nothing is looked up and nothing is
    sent. *)
Theorem process_message_without_channel_raises {price : Type}
  (format_2f : price -> string) (strftime_A_d_B : Z -> string)
  (lower : string -> string) (api_call : request -> M price response)
  (update_run : M price unit) (data : message) (t : string)
  (w : world price) :
  username data <> Some "komidabot" ->
  (forall s, subtype data = Some s -> contains "bot" s = false) ->
  text data = Some t ->
  channel data = None ->
  process_message format_2f strftime_A_d_B lower api_call update_run data w
  = (Raise (Exn "AttributeError"
              "'NoneType' object has no attribute 'startswith'"), w).
Proof.
  intros Huser Hsub Htext Hchan. unfold process_message.
  rewrite Htext, Hchan.
  destruct (username data) as [u|].
  - destruct (String.eqb u "komidabot") eqn:E.
    + apply String.eqb_eq in E. subst u. now contradiction Huser.
    + destruct (subtype data) as [s|]; [|reflexivity].
      now rewrite (Hsub s eq_refl).
  - destruct (subtype data) as [s|]; [|reflexivity].
    now rewrite (Hsub s eq_refl).
Qed.

Lemma process_message_without_channel_raises_witness :
  process_message format_cents strftime_ordinal lower_string
    accepting_api_call failing_update_run
    {| username := Some "alice"; subtype := None; text := Some "Lunch!";
       channel := None |}
    one_soup_world
  = (Raise (Exn "AttributeError"
              "'NoneType' object has no attribute 'startswith'"),
     one_soup_world).
Proof.
  apply (process_message_without_channel_raises
           format_cents strftime_ordinal lower_string accepting_api_call
           failing_update_run
           {| username := Some "alice"; subtype := None;
              text := Some "Lunch!"; channel := None |}
           "Lunch!" one_soup_world).
  - discriminate.
  - discriminate.
  - reflexivity.
  - reflexivity.
Defined.

(** C7: the recovery of an empty result never raises.  When the interim
    notice, the refresh or the second lookup raises [e], the exception is
    logged and [menus] keeps the value [found] it had; otherwise [menus] is
    the result of the second lookup.  Either way [process_message] goes on to
    the reply with that value. *)
Theorem recovery_swallows_exceptions {price : Type}
  (format_2f : price -> string) (strftime_A_d_B : Z -> string)
  (api_call : request -> M price response) (update_run : M price unit)
  (chan : string) (campuses : list string) (dates : list Z)
  (found : menus price) (w : world price) :
  exists found' w',
    recovery strftime_A_d_B api_call update_run chan campuses dates found w
    = (Ok found', w')
    /\ (forall e w1,
           refresh_and_retry strftime_A_d_B api_call update_run chan campuses
             dates w = (Raise e, w1) ->
           found' = found
           /\ logs w'
              = logs w1
                  ++ [("exception",
                       ("Problem while updating the menu: "
                          ++ exn_str e)%string)]
           /\ store w' = store w1 /\ connections w' = connections w1)
    /\ (forall retried w1,
           refresh_and_retry strftime_A_d_B api_call update_run chan campuses
             dates w = (Ok retried, w1) ->
           found' = retried /\ w' = w1)
    /\ (forall txt w0,
           get_campus txt = campuses ->
           get_date (clock w0) txt = Ok dates ->
           get_menu campuses dates w0 = (Ok found, w) ->
           nonempty found = false ->
           answer format_2f strftime_A_d_B api_call update_run chan txt w0
           = reply format_2f strftime_A_d_B api_call chan found' w').
Proof.
  assert (Hanswer : forall found' w' txt w0,
             recovery strftime_A_d_B api_call update_run chan campuses dates
               found w = (Ok found', w') ->
             get_campus txt = campuses ->
             get_date (clock w0) txt = Ok dates ->
             get_menu campuses dates w0 = (Ok found, w) ->
             nonempty found = false ->
             answer format_2f strftime_A_d_B api_call update_run chan txt w0
             = reply format_2f strftime_A_d_B api_call chan found' w').
  { intros found' w' txt w0 Hrec Hc Hd Hm Hne.
    unfold answer. cbv zeta. rewrite Hc.
    unfold bind at 1. unfold get_date_now. rewrite Hd.
    unfold bind at 1. rewrite Hm.
    unfold bind at 1. rewrite Hne, Hrec. reflexivity. }
  unfold recovery, try_except in *.
  destruct (refresh_and_retry strftime_A_d_B api_call update_run chan
              campuses dates w) as [[retried|e] w1].
  - exists retried, w1. split; [reflexivity|]. split; [|split].
    + intros e w2 H. discriminate.
    + intros r w2 H. now injection H as <- <-.
    + intros txt w0. now apply Hanswer.
  - eexists found, _. split; [reflexivity|]. split; [|split].
    + intros e' w2 H. injection H as <- <-. now repeat split.
    + intros r w2 H. discriminate.
    + intros txt w0. now apply Hanswer.
Qed.

Lemma recovery_swallows_exceptions_witness :
  exists found' w',
    recovery strftime_ordinal accepting_api_call failing_update_run "C024BE7LR"
      ["cmi"] [monday_2026_11_02] []
      (snd (get_menu ["cmi"] [monday_2026_11_02] empty_world))
    = (Ok found', w')
    /\ found' = []
    /\ answer format_cents strftime_ordinal accepting_api_call
         failing_update_run "C024BE7LR" "lunch!" empty_world
       = reply format_cents strftime_ordinal accepting_api_call "C024BE7LR"
           found' w'.
Proof.
  destruct (recovery_swallows_exceptions
              format_cents strftime_ordinal accepting_api_call
              failing_update_run "C024BE7LR" ["cmi"] [monday_2026_11_02] []
              (snd (get_menu ["cmi"] [monday_2026_11_02] empty_world)))
    as (found' & w' & Hrec & Hraise & _ & Hanswer).
  exists found', w'. split; [exact Hrec|]. split.
  - eapply Hraise. vm_compute. reflexivity.
  - apply (Hanswer "lunch!" empty_world); reflexivity.
Defined.

(** * Further properties of the plugin *)

(** ** More on the classifier *)

Lemma String_leb_total (x y : string) :
  String.leb x y = false -> String.leb y x = true.
Proof.
  intros H. destruct (String.leb_total x y) as [H'|H']; [congruence|exact H'].
Qed.

Lemma filter_nil_iff {A : Type} (f : A -> bool) (l : list A) :
  filter f l = [] <-> forall x, In x l -> f x = false.
Proof.
  induction l as [|a l IH]; cbn [filter].
  - split; [intros _ x []|reflexivity].
  - destruct (f a) eqn:E.
    + split; [discriminate|]. intros H. specialize (H a (or_introl eq_refl)).
      congruence.
    + rewrite IH. split.
      * intros H x [<-|Hx]; [exact E|now apply H].
      * intros H x Hx. apply H. now right.
Qed.

Lemma nonempty_false {A : Type} (l : list A) : nonempty l = false -> l = [].
Proof. destruct l; [reflexivity|discriminate]. Qed.

(** [get_campus] returns the code of a campus exactly when one of its
    aliases occurs in the text, and [cmi] also when no alias of any campus
    occurs. *)
Theorem get_campus_mentions (text c : string) :
  In c (get_campus text) <->
  (exists aliases,
      In (c, aliases) campus_options
      /\ any (fun c_text => contains c_text text) aliases = true)
  \/ (c = "cmi"
      /\ forall o, In o campus_options ->
                   any (fun c_text => contains c_text text) (snd o) = false).
Proof.
  unfold get_campus. cbv zeta. rewrite sorted_nonempty.
  set (matched := filter (fun o => any (fun c_text => contains c_text text)
                                    (snd o)) campus_options).
  assert (Hmatched : forall aliases,
             In (c, aliases) matched <->
             In (c, aliases) campus_options
             /\ any (fun c_text => contains c_text text) aliases = true).
  { intros aliases. unfold matched. now rewrite filter_In. }
  destruct (nonempty (map fst matched)) eqn:E.
  - split.
    + intros H.
      apply (Permutation_in _
               (Permutation_sym
                  (sorted_perm String.leb String_leb_total _))) in H.
      apply in_map_iff in H as ([c' aliases] & Hc & Hin). cbn [fst] in Hc.
      subst c'. left. exists aliases. now apply Hmatched.
    + intros [(aliases & Hin)|(_ & Hnone)].
      * apply (Permutation_in _ (sorted_perm String.leb String_leb_total _)).
        apply (in_map fst _ (c, aliases)). now apply Hmatched.
      * apply (proj2 (filter_nil_iff _ _)) in Hnone. fold matched in Hnone.
        rewrite Hnone in E. discriminate.
  - apply nonempty_false in E. apply map_eq_nil in E.
    split.
    + intros [<-|[]]. right. split; [reflexivity|].
      now apply filter_nil_iff.
    + intros [(aliases & Hin)|(-> & _)]; [|now left].
      apply Hmatched in Hin. rewrite E in Hin. contradiction.
Qed.

Lemma get_campus_mentions_witness :
  In "cgb" (get_campus "monday groenenborger").
Proof.
  apply (get_campus_mentions "monday groenenborger" "cgb").
  left. exists ["cgb"; "groenenborger"]. split.
  - right. left. reflexivity.
  - reflexivity.
Defined.

(** The result of [get_campus] has no repeated code and at most four
    codes. *)
Theorem get_campus_no_duplicates (text : string) :
  NoDup (get_campus text) /\ (List.length (get_campus text) <= 4)%nat.
Proof.
  split.
  - campus_cases text;
      match goal with
      | |- NoDup ?l => let l' := eval vm_compute in l in change (NoDup l')
      end;
      repeat (constructor; [cbn [In]; intuition discriminate|]);
      constructor.
  - campus_cases text;
      match goal with
      | |- (List.length ?l <= 4)%nat =>
          let l' := eval vm_compute in l in
          change (List.length l' <= 4)%nat
      end;
      cbn [List.length]; lia.
Qed.

(** A text without any keyword of [date_options] gives today alone, on every
    day of the calendar. *)
Theorem get_date_default_today (today : Z) (text : string) :
  (forall o, In o (date_options today) -> contains (fst o) text = false) ->
  get_date today text = Ok [today].
Proof.
  intros H. unfold get_date.
  rewrite (proj2 (filter_nil_iff _ _) H). reflexivity.
Qed.

Lemma get_date_default_today_witness :
  get_date date_min "lunch!" = Ok [date_min].
Proof.
  apply (get_date_default_today date_min "lunch!").
  unfold date_options, In. intros o H.
  repeat (destruct H as [<-|H]; [reflexivity|]). contradiction.
Defined.

(** The date a name of a day of the week stands for in [date_options] falls
    on that day of the week, in the week from Monday to Sunday that holds
    today. *)
Theorem date_options_weekday (today : Z) (i : nat) (name : string)
  (offset : Z) :
  nth_error weekday_names i = Some name ->
  In (name, offset) (date_options today) ->
  weekday (today + offset) = Z.of_nat i
  /\ today - weekday today <= today + offset <= today - weekday today + 6.
Proof.
  intros Hn Hin.
  assert (Hoff : offset = Z.of_nat i - weekday today /\ 0 <= Z.of_nat i <= 6).
  { unfold date_options, In in Hin.
    do 7 (destruct i as [|i];
          [injection Hn as <-;
           repeat (destruct Hin as [Hin|Hin];
                   [(discriminate Hin) || (injection Hin as <-; cbn; lia)|]);
           contradiction|]).
    destruct i; discriminate. }
  destruct Hoff as [-> Hi]. split; [|lia].
  unfold weekday.
  replace (today + (Z.of_nat i - (today + 6) mod 7) + 6)
    with (Z.of_nat i + ((today + 6) / 7) * 7)
    by (pose proof (Z.div_mod (today + 6) 7); lia).
  rewrite Z.mod_add by lia. apply Z.mod_small. lia.
Qed.

Lemma date_options_weekday_witness :
  weekday (wednesday_2026_11_04 + (0 - weekday wednesday_2026_11_04)) = 0
  /\ wednesday_2026_11_04 - weekday wednesday_2026_11_04
     <= wednesday_2026_11_04 + (0 - weekday wednesday_2026_11_04)
     <= wednesday_2026_11_04 - weekday wednesday_2026_11_04 + 6.
Proof.
  apply (date_options_weekday wednesday_2026_11_04 0%nat "monday"
           (0 - weekday wednesday_2026_11_04)).
  - reflexivity.
  - right. right. right. left. reflexivity.
Defined.

Lemma date_options_window (today : Z) (o : string * Z) :
  In o (date_options today) ->
  today + snd o = today \/ today + snd o = today + 1
  \/ today + snd o = today - 1
  \/ today - weekday today <= today + snd o <= today - weekday today + 6.
Proof.
  unfold date_options, In. intros H.
  repeat (destruct H as [<-|H]; [cbn [snd]; lia|]). contradiction.
Qed.

(** Every date [get_date] returns is today, tomorrow, yesterday or a day of
    the week from Monday to Sunday that holds today, and there are at most
    ten of them, one per keyword of [date_options]. *)
Theorem get_date_within_week (today : Z) (text : string) (dates : list Z) :
  get_date today text = Ok dates ->
  Forall (fun d => d = today \/ d = today + 1 \/ d = today - 1
                   \/ today - weekday today <= d
                                            <= today - weekday today + 6)
    dates
  /\ (1 <= List.length dates <= 10)%nat.
Proof.
  intros H. apply get_date_Ok in H. subst dates.
  destruct (nonempty (candidate_dates today text)) eqn:E.
  - pose proof (sorted_perm Z.leb Zleb_total (candidate_dates today text))
      as Hp.
    split.
    + apply Forall_forall. intros d Hd.
      apply (Permutation_in _ (Permutation_sym Hp)) in Hd.
      unfold candidate_dates in Hd.
      apply in_map_iff in Hd as (o & <- & Ho).
      apply filter_In in Ho as [Ho _].
      now apply date_options_window.
    + rewrite <- (Permutation_length Hp).
      destruct (candidate_dates today text) as [|d ds] eqn:Ec;
        [discriminate|].
      split; [cbn [List.length]; lia|].
      rewrite <- Ec. unfold candidate_dates. rewrite length_map.
      eapply Nat.le_trans; [apply filter_length_le|].
      cbn [date_options List.length]. lia.
  - split; [|cbn [List.length]; lia].
    constructor; [now left|constructor].
Qed.

Lemma get_date_within_week_witness :
  Forall (fun d => d = wednesday_2026_11_04
                   \/ d = wednesday_2026_11_04 + 1
                   \/ d = wednesday_2026_11_04 - 1
                   \/ wednesday_2026_11_04 - weekday wednesday_2026_11_04
                      <= d
                      <= wednesday_2026_11_04 - weekday wednesday_2026_11_04
                         + 6)
    [monday_2026_11_02; wednesday_2026_11_04 + 1]
  /\ (1 <= List.length [monday_2026_11_02; (wednesday_2026_11_04 + 1)%Z]
      <= 10)%nat.
Proof.
  apply (get_date_within_week wednesday_2026_11_04 "monday and tomorrow").
  vm_compute. reflexivity.
Defined.

Lemma comprehension_Raise {A B : Type} (f : A -> result B) (xs : list A)
  (e : exn) :
  comprehension f xs = Raise e -> exists x, In x xs /\ f x = Raise e.
Proof.
  induction xs as [|x xs IH]; cbn [comprehension]; [discriminate|].
  destruct (f x) as [y|e'] eqn:E.
  - destruct (comprehension f xs) as [ys|e'']; [discriminate|].
    intros H. injection H as <-.
    destruct (IH eq_refl) as (x' & Hin & Hx'). exists x'. split; [|exact Hx'].
    now right.
  - intros H. injection H as <-. exists x. split; [now left|exact E].
Qed.

Lemma comprehension_raises {A B : Type} (f : A -> result B) (xs : list A)
  (x : A) (e : exn) :
  In x xs -> f x = Raise e -> exists e', comprehension f xs = Raise e'.
Proof.
  induction xs as [|y xs IH]; [contradiction|].
  intros [->|Hin] Hx; cbn [comprehension].
  - rewrite Hx. now eexists.
  - destruct (f y); [|now eexists].
    destruct (IH Hin Hx) as [e' ->]. now eexists.
Qed.

(** The only exception [get_date] raises is the [OverflowError] of the date
    arithmetic, and only within six days of the first or last day of the
    calendar of [datetime]; on the first day of that calendar a text with
    "yesterday" does raise. *)
Theorem get_date_overflow (today : Z) (text : string) :
  (forall e,
      get_date today text = Raise e ->
      e = Exn "OverflowError" "date value out of range"
      /\ (today < date_min + 6 \/ date_max - 6 < today))
  /\ (today = date_min -> contains "yesterday" text = true ->
      get_date today text
      = Raise (Exn "OverflowError" "date value out of range")).
Proof.
  assert (Hexn : forall e,
             get_date today text = Raise e ->
             e = Exn "OverflowError" "date value out of range").
  { intros e. unfold get_date.
    destruct (comprehension _ _) as [ds|e'] eqn:E; [discriminate|].
    intros H. injection H as <-.
    apply comprehension_Raise in E as (o & _ & Ho).
    unfold date_add in Ho.
    destruct ((date_min <=? today + snd o) && (today + snd o <=? date_max));
      [discriminate|].
    now injection Ho as <-. }
  split.
  - intros e H. split; [now apply Hexn|].
    destruct (Z_lt_dec today (date_min + 6)) as [Hlo|Hlo]; [now left|].
    destruct (Z_lt_dec (date_max - 6) today) as [Hhi|Hhi]; [now right|].
    rewrite get_date_returns in H by lia. discriminate.
  - intros -> Hy.
    assert (Hraise : exists e, get_date date_min text = Raise e).
    { unfold get_date.
      destruct (comprehension_raises
                  (fun o => date_add date_min (snd o))
                  (filter (fun o => contains (fst o) text)
                     (date_options date_min))
                  ("yesterday", -1)
                  (Exn "OverflowError" "date value out of range"))
        as [e' ->].
      - apply filter_In. split; [|exact Hy].
        right. right. left. reflexivity.
      - reflexivity.
      - now eexists. }
    destruct Hraise as [e He]. rewrite He. f_equal. now apply Hexn.
Qed.

Lemma get_date_overflow_witness :
  get_date date_min "what was there yesterday"
  = Raise (Exn "OverflowError" "date value out of range").
Proof.
  apply (get_date_overflow date_min "what was there yesterday");
    reflexivity.
Defined.

(** ** Dictionaries: lookup after update *)

Section DictFacts.
Context {K V : Type}.
Variable eqb : K -> K -> bool.
Hypothesis eqb_eq : forall a b, eqb a b = true <-> a = b.

Lemma eqb_same (a : K) : eqb a a = true.
Proof. now apply eqb_eq. Qed.

Lemma dict_get_set (k k' : K) (v : V) (d : list (K * V)) :
  dict_get eqb k' (dict_set eqb k v d)
  = if eqb k' k then Some v else dict_get eqb k' d.
Proof.
  induction d as [|[k0 v0] d IH]; cbn [dict_set dict_get].
  - reflexivity.
  - destruct (eqb k k0) eqn:E; cbn [dict_get].
    + apply eqb_eq in E. subst k0. now destruct (eqb k' k).
    + rewrite IH. destruct (eqb k' k0) eqn:E0; [|reflexivity].
      destruct (eqb k' k) eqn:E1; [|reflexivity].
      apply eqb_eq in E0, E1. subst. rewrite eqb_same in E. discriminate.
Qed.

Lemma dict_get_app (k : K) (d d' : list (K * V)) :
  dict_get eqb k (d ++ d')
  = match dict_get eqb k d with
    | Some v => Some v
    | None => dict_get eqb k d'
    end.
Proof.
  induction d as [|[k0 v0] d IH]; cbn [app dict_get]; [reflexivity|].
  now destruct (eqb k k0).
Qed.

Lemma dict_get_In_gen (k : K) (v : V) (d : list (K * V)) :
  dict_get eqb k d = Some v -> In (k, v) d.
Proof.
  induction d as [|[k0 v0] d IH]; cbn [dict_get]; [discriminate|].
  destruct (eqb k k0) eqn:E.
  - apply eqb_eq in E. subst k0. intros H. injection H as <-. now left.
  - intros H. right. now apply IH.
Qed.

Lemma dict_get_None_keys (k : K) (d : list (K * V)) :
  dict_get eqb k d = None <-> ~ In k (dict_keys d).
Proof.
  unfold dict_keys. induction d as [|[k0 v0] d IH]; cbn [dict_get map fst In].
  - tauto.
  - destruct (eqb k k0) eqn:E.
    + apply eqb_eq in E. subst k0. split; [discriminate|]. tauto.
    + rewrite IH. split.
      * intros H [Heq|Hin]; [|tauto].
        subst k0. rewrite eqb_same in E. discriminate.
      * tauto.
Qed.

Lemma dict_set_keys (k : K) (v : V) (d : list (K * V)) :
  dict_keys (dict_set eqb k v d)
  = match dict_get eqb k d with
    | Some _ => dict_keys d
    | None => dict_keys d ++ [k]
    end.
Proof.
  unfold dict_keys. induction d as [|[k0 v0] d IH]; cbn [dict_set dict_get].
  - reflexivity.
  - destruct (eqb k k0) eqn:E; cbn [map fst]; [reflexivity|].
    rewrite IH. now destruct (dict_get eqb k d).
Qed.

Lemma dict_set_NoDup (k : K) (v : V) (d : list (K * V)) :
  NoDup (dict_keys d) -> NoDup (dict_keys (dict_set eqb k v d)).
Proof.
  intros Hnd. rewrite dict_set_keys.
  destruct (dict_get eqb k d) eqn:E; [exact Hnd|].
  apply dict_get_None_keys in E.
  apply NoDup_app; [exact Hnd|repeat constructor; intros []|].
  intros x Hx [<-|[]]. contradiction.
Qed.
End DictFacts.

Lemma key_eqb_iff (a b : Z * string) : key_eqb a b = true <-> a = b.
Proof.
  split; [apply key_eqb_eq|]. intros <-. unfold key_eqb.
  now rewrite Z.eqb_refl, String.eqb_refl.
Qed.

(** ** More on the menu repository *)

Section RepositoryLookup.
Context {price : Type}.

(** One turn of the loop of [get_menu] on connection [conn], lines 75-77. *)
Let turn (conn : nat) (key : Z * string) (menu : menus price)
  : M price (menus price) :=
  bind (select conn (fst key) (snd key))
    (fun rows => ret (fold_left (fun m r => add_row key r m) rows menu)).

(** The entry [e] after the rows of one query were stored in it. *)
Let set_rows (rows : list (row price)) (e : entry price) : entry price :=
  fold_left (fun e r => dict_set String.eqb (fst r) (snd r) e) rows e.

(** The entry the [defaultdict] hands out for [key]. *)
Let inner (key : Z * string) (menu : menus price) : entry price :=
  match dict_get key_eqb key menu with
  | Some e => e
  | None => []
  end.

Lemma set_rows_lookup (t : string) (rows : list (row price))
  (e : entry price) :
  dict_get String.eqb t (set_rows rows e)
  = match dict_get String.eqb t (rev rows) with
    | Some v => Some v
    | None => dict_get String.eqb t e
    end.
Proof.
  unfold set_rows. revert e.
  induction rows as [|[t0 v0] rows IH]; intros e; [reflexivity|].
  cbn [fold_left rev fst snd]. rewrite IH. clear IH. unfold row in *.
  rewrite (dict_get_app String.eqb). cbn [dict_get].
  rewrite (dict_get_set String.eqb String.eqb_eq).
  destruct (dict_get String.eqb t (rev rows)); [reflexivity|].
  now destruct (String.eqb t t0).
Qed.

Lemma add_rows_lookup (key k : Z * string) (rows : list (row price))
  (menu : menus price) :
  dict_get key_eqb k (fold_left (fun m r => add_row key r m) rows menu)
  = match rows with
    | [] => dict_get key_eqb k menu
    | _ :: _ =>
        if key_eqb k key then Some (set_rows rows (inner key menu))
        else dict_get key_eqb k menu
    end.
Proof.
  revert menu. induction rows as [|r rows IH]; intros menu; [reflexivity|].
  cbn [fold_left]. rewrite IH. unfold add_row. fold (inner key menu).
  destruct rows as [|r' rows].
  - rewrite (dict_get_set key_eqb key_eqb_iff). reflexivity.
  - rewrite (dict_get_set key_eqb key_eqb_iff).
    destruct (key_eqb k key) eqn:E; [|reflexivity].
    unfold inner at 1.
    rewrite (dict_get_set key_eqb key_eqb_iff).
    rewrite (proj2 (key_eqb_iff key key) eq_refl). reflexivity.
Qed.

Section Reflect.
Variable st : Z -> string -> result (list (row price)).

(** Every entry of the mapping holds, for each menu type, the item of the
    last row of that type its query returned. *)
Let reflects (menu : menus price) : Prop :=
  forall k e,
    dict_get key_eqb k menu = Some e ->
    exists rows,
      st (fst k) (snd k) = Ok rows /\ rows <> []
      /\ forall t, dict_get String.eqb t e = dict_get String.eqb t (rev rows).

(** Every key of [S] whose query returned rows is in the mapping. *)
Let holds (S : Z * string -> Prop) (menu : menus price) : Prop :=
  forall k rows,
    S k -> st (fst k) (snd k) = Ok rows -> rows <> [] ->
    dict_get key_eqb k menu <> None.

Lemma add_rows_reflects (key : Z * string) (rows : list (row price))
  (menu : menus price) :
  st (fst key) (snd key) = Ok rows ->
  reflects menu ->
  reflects (fold_left (fun m r => add_row key r m) rows menu).
Proof.
  intros Hst Hmenu k e. rewrite add_rows_lookup.
  destruct rows as [|r rows]; [apply Hmenu|].
  destruct (key_eqb k key) eqn:E; [|apply Hmenu].
  apply key_eqb_iff in E. subst k. intros H.
  assert (He : e = set_rows (r :: rows) (inner key menu)) by congruence.
  clear H. subst e.
  exists (r :: rows). split; [exact Hst|]. split; [discriminate|].
  intros t. rewrite (set_rows_lookup t (r :: rows)).
  destruct (dict_get String.eqb t (rev (r :: rows))) eqn:Et; [reflexivity|].
  unfold inner. destruct (dict_get key_eqb key menu) as [e0|] eqn:E0;
    [|reflexivity].
  destruct (Hmenu key e0 E0) as (rows0 & Hst0 & _ & Hlook).
  rewrite Hst in Hst0. injection Hst0 as <-. now rewrite Hlook.
Qed.

Lemma add_rows_holds (S : Z * string -> Prop) (key : Z * string)
  (rows : list (row price)) (menu : menus price) :
  st (fst key) (snd key) = Ok rows ->
  holds S menu ->
  holds (fun k => S k \/ k = key)
    (fold_left (fun m r => add_row key r m) rows menu).
Proof.
  intros Hst Hmenu k rows0 Hk Hst0 Hne. rewrite add_rows_lookup.
  destruct (key_eqb k key) eqn:E.
  - apply key_eqb_iff in E. subst k. rewrite Hst in Hst0.
    injection Hst0 as <-. destruct rows; [now contradiction Hne|discriminate].
  - assert (HS : S k).
    { destruct Hk as [HS| ->]; [exact HS|].
      rewrite (proj2 (key_eqb_iff key key) eq_refl) in E. discriminate. }
    destruct rows; now apply (Hmenu k rows0).
Qed.

Lemma loop_reflects (S : Z * string -> Prop) (conn : nat)
  (keys : list (Z * string)) (menu found : menus price)
  (w w' : world price) :
  store w = st ->
  reflects menu -> holds S menu ->
  for_each keys (turn conn) menu w = (Ok found, w') ->
  reflects found /\ holds (fun k => S k \/ In k keys) found.
Proof.
  unfold turn. revert S menu w.
  induction keys as [|key keys IH]; intros S menu w Hw Hr Hh.
  - cbn. intros H. injection H as <- _. split; [exact Hr|].
    intros k rows [HS|[]]. now apply Hh.
  - rewrite loop_step. rewrite Hw.
    destruct (st (fst key) (snd key)) as [rows|e] eqn:E; [|discriminate].
    intros Hrun.
    apply (IH (fun k => S k \/ k = key)) in Hrun.
    + destruct Hrun as [Hr' Hh']. split; [exact Hr'|].
      intros k rows0 Hk. apply Hh'. cbn [In] in Hk.
      destruct Hk as [HS|[<-|Hin]]; auto.
    + exact Hw.
    + now apply add_rows_reflects.
    + now apply add_rows_holds.
Qed.
End Reflect.

(** The loop keeps any property of the mapping that storing one row
    keeps. *)
Lemma loop_preserves (I : menus price -> Prop) (conn : nat)
  (keys : list (Z * string)) (menu found : menus price)
  (w w' : world price) :
  (forall key r m, I m -> I (add_row key r m)) ->
  I menu ->
  for_each keys (turn conn) menu w = (Ok found, w') ->
  I found.
Proof.
  intros Hstep. unfold turn. revert menu w.
  induction keys as [|key keys IH]; intros menu w Hmenu.
  - cbn. intros H. now injection H as <- _.
  - rewrite loop_step.
    destruct (store w (fst key) (snd key)) as [rows|e]; [|discriminate].
    apply IH. clear IH. revert menu Hmenu.
    induction rows as [|r rows IHr]; intros menu Hmenu; [exact Hmenu|].
    cbn [fold_left]. apply IHr. now apply Hstep.
Qed.

End RepositoryLookup.

(** When [get_menu] returns, every requested pair of a date and a campus
    whose query returned rows is a key of the mapping, and its entry gives
    for each menu type the item of the last row of that type: a later row
    replaces an earlier row of the same type. *)
Theorem get_menu_last_row_wins {price : Type}
  (campuses : list string) (dates : list Z) (w w' : world price)
  (found : menus price) :
  get_menu campuses dates w = (Ok found, w') ->
  forall date campus rows,
    In date dates -> In campus campuses ->
    store w date campus = Ok rows -> rows <> [] ->
    exists e,
      dict_get key_eqb (date, campus) found = Some e
      /\ forall t, dict_get String.eqb t e = dict_get String.eqb t (rev rows).
Proof.
  rewrite get_menu_unfold. intros Hrun date campus rows Hd Hc Hst Hne.
  apply (loop_reflects (store w) (fun _ => False)) in Hrun.
  - destruct Hrun as [Hr Hh].
    destruct (dict_get key_eqb (date, campus) found) as [e|] eqn:E.
    + exists e. split; [reflexivity|].
      destruct (Hr _ _ E) as (rows' & Hst' & _ & Hlook).
      cbn [fst snd] in Hst'. rewrite Hst in Hst'. now injection Hst' as <-.
    + exfalso. apply (Hh (date, campus) rows); try assumption.
      right. now apply in_prod.
  - reflexivity.
  - intros k e. discriminate.
  - intros k rs [].
Qed.

Lemma get_menu_last_row_wins_witness :
  exists e,
    dict_get key_eqb (monday_2026_11_02, "cmi")
      [((monday_2026_11_02, "cmi"), [("soup", ("tomato soup", 350, 420))])]
    = Some e
    /\ forall t,
        dict_get String.eqb t e
        = dict_get String.eqb t (rev [("soup", ("tomato soup", 350, 420))]).
Proof.
  apply (get_menu_last_row_wins
           ["cde"; "cmi"] [monday_2026_11_02; wednesday_2026_11_04]
           one_soup_world
           (snd (get_menu ["cde"; "cmi"]
                   [monday_2026_11_02; wednesday_2026_11_04] one_soup_world))
           [((monday_2026_11_02, "cmi"),
             [("soup", ("tomato soup", 350, 420))])]
           eq_refl monday_2026_11_02 "cmi"
           [("soup", ("tomato soup", 350, 420))]).
  - left. reflexivity.
  - right. left. reflexivity.
  - reflexivity.
  - discriminate.
Defined.

(** When every query of the requested pairs returns no row, [get_menu]
    returns the empty mapping. *)
Theorem get_menu_nothing_found {price : Type}
  (campuses : list string) (dates : list Z) (w : world price) :
  (forall date campus, In date dates -> In campus campuses ->
                       store w date campus = Ok []) ->
  exists w', get_menu campuses dates w = (Ok [], w').
Proof.
  intros Hnone.
  destruct (get_menu_returns campuses dates w) as (found & w' & Hrun).
  { intros date campus Hd Hc. exists []. now apply Hnone. }
  exists w'. rewrite Hrun. do 2 f_equal.
  rewrite get_menu_unfold in Hrun.
  destruct found as [|[key e] found]; [reflexivity|]. exfalso.
  refine (proj2 (loop_inv (fun _ => False) _ _ _ _ _ _ _ _ Hrun key e
                   (or_introl eq_refl))).
  - cbn [sqlite3_connect snd store]. intros [d c] rows Hin Hst Hne.
    apply in_prod_iff in Hin as [Hd Hc]. cbn [fst snd] in Hst.
    rewrite (Hnone d c Hd Hc) in Hst. injection Hst as <-. now apply Hne.
  - intros k e' [].
Qed.

Lemma get_menu_nothing_found_witness :
  exists w',
    get_menu ["cmi"] [monday_2026_11_02] empty_world = (Ok [], w').
Proof.
  apply (get_menu_nothing_found ["cmi"] [monday_2026_11_02] empty_world).
  reflexivity.
Defined.



(** The mapping [get_menu] returns is a dictionary of dictionaries: no key
    is repeated in it or in any of its entries; so [format_menu] lays every
    entry of it out in the priority order of the formatter. *)
Theorem get_menu_well_formed {price : Type} (format_2f : price -> string)
  (campuses : list string) (dates : list Z) (w w' : world price)
  (found : menus price) :
  get_menu campuses dates w = (Ok found, w') ->
  NoDup (dict_keys found)
  /\ forall key e,
      In (key, e) found ->
      NoDup (dict_keys e)
      /\ format_menu_lines format_2f e = lines_in_priority_order format_2f e.
Proof.
  rewrite get_menu_unfold. intros Hrun.
  apply (loop_preserves
           (fun m => NoDup (dict_keys m)
                     /\ forall key e, In (key, e) m -> NoDup (dict_keys e)))
    in Hrun.
  - destruct Hrun as [Hkeys Hentries]. split; [exact Hkeys|].
    intros key e Hin. split; [now apply (Hentries key)|].
    apply format_menu_lines_layout, NoDup_keys_consistent.
    now apply (Hentries key).
  - intros key r m [Hkeys Hentries]. unfold add_row. split.
    + now apply (dict_set_NoDup key_eqb key_eqb_iff).
    + intros k e Hin.
      apply (dict_set_In key_eqb) in Hin; [|exact key_eqb_eq].
      destruct Hin as [Hin|[_ ->]]; [now apply (Hentries k)|].
      apply (dict_set_NoDup String.eqb String.eqb_eq).
      destruct (dict_get key_eqb key m) as [e0|] eqn:E; [|constructor].
      apply (dict_get_In_gen key_eqb key_eqb_iff) in E.
      now apply (Hentries key).
  - split; [constructor|intros key e []].
Qed.

Lemma get_menu_well_formed_witness :
  NoDup (dict_keys
           [((monday_2026_11_02, "cmi"),
             [("soup", ("tomato soup", 350, 420))])])
  /\ forall key e,
      In (key, e)
        [((monday_2026_11_02, "cmi"),
          [("soup", ("tomato soup", 350, 420))])] ->
      NoDup (dict_keys e)
      /\ format_menu_lines format_cents e
         = lines_in_priority_order format_cents e.
Proof.
  apply (get_menu_well_formed format_cents
           ["cde"; "cmi"] [monday_2026_11_02; wednesday_2026_11_04]
           one_soup_world
           (snd (get_menu ["cde"; "cmi"]
                   [monday_2026_11_02; wednesday_2026_11_04] one_soup_world))).
  reflexivity.
Defined.

(** ** More on the formatter *)

Lemma campus_codes_coloured (c : string) :
  In c campus_codes ->
  exists col, dict_get String.eqb c campus_colors = Some col.
Proof.
  change campus_codes with ["cde"; "cgb"; "cmi"; "cst"]. cbn [In].
  intros H. repeat (destruct H as [<-|H]; [now eexists|]). contradiction.
Qed.

Lemma get_campus_in_codes (text c : string) :
  In c (get_campus text) -> In c campus_codes.
Proof.
  change campus_codes with ["cde"; "cgb"; "cmi"; "cst"].
  campus_cases text; compute; tauto.
Qed.

(** The cards [create_attachments] builds when every campus has a colour. *)
Lemma create_attachments_Forall2 {price : Type} (format_2f : price -> string)
  (strftime_A_d_B : Z -> string) (menu : menus price) :
  (forall key e, In (key, e) menu -> In (snd key) campus_codes) ->
  exists atts,
    create_attachments format_2f strftime_A_d_B menu = Ok atts
    /\ Forall2
         (fun kv att =>
            title att
            = ("Menu komida " ++ upper (snd (fst kv)) ++ " on "
                 ++ strftime_A_d_B (fst (fst kv)))%string
            /\ dict_get String.eqb (snd (fst kv)) campus_colors
               = Some (color att)
            /\ body att = format_menu format_2f (snd kv))
         menu atts.
Proof.
  unfold create_attachments.
  induction menu as [|[[date campus] e] menu IH]; intros Hcodes.
  - exists []. split; [reflexivity|constructor].
  - destruct IH as (atts & Hrun & Hall).
    { intros key e' Hin. apply (Hcodes key e'). now right. }
    destruct (campus_codes_coloured campus) as [col Hcol].
    { apply (Hcodes (date, campus) e). now left. }
    cbn [comprehension]. rewrite Hcol, Hrun.
    eexists. split; [reflexivity|].
    constructor; [|exact Hall]. cbn [title color body fst snd]. now repeat split.
Qed.

(** For a mapping whose campuses all have a colour, [create_attachments]
    returns one card per entry, in the order of the mapping: its title names
    the campus in upper case and the date, its colour is that of the campus
    and its text is the formatted entry. *)
Theorem create_attachments_cards {price : Type} (format_2f : price -> string)
  (strftime_A_d_B : Z -> string) (menu : menus price) :
  (forall key e, In (key, e) menu -> In (snd key) campus_codes) ->
  exists atts,
    create_attachments format_2f strftime_A_d_B menu = Ok atts
    /\ List.length atts = List.length menu
    /\ Forall2
         (fun kv att =>
            title att
            = ("Menu komida " ++ upper (snd (fst kv)) ++ " on "
                 ++ strftime_A_d_B (fst (fst kv)))%string
            /\ dict_get String.eqb (snd (fst kv)) campus_colors
               = Some (color att)
            /\ body att = format_menu format_2f (snd kv))
         menu atts.
Proof.
  intros Hcodes.
  destruct (create_attachments_Forall2 format_2f strftime_A_d_B menu Hcodes)
    as (atts & Hrun & Hall).
  exists atts. split; [exact Hrun|]. split; [|exact Hall].
  symmetry. exact (Forall2_length Hall).
Qed.

Lemma create_attachments_cards_witness :
  exists atts,
    create_attachments format_cents strftime_ordinal
      [((monday_2026_11_02, "cmi"), pasta_from_the_grill)]
    = Ok atts
    /\ List.length atts = 1%nat.
Proof.
  destruct (create_attachments_cards format_cents strftime_ordinal
              [((monday_2026_11_02, "cmi"), pasta_from_the_grill)])
    as (atts & Hrun & Hlen & _).
  - intros key e [H|[]]. injection H as <- <-. vm_compute. tauto.
  - exists atts. split; [exact Hrun|exact Hlen].
Defined.



(** The campuses [get_campus] finds always have a colour: for the mapping
    [get_menu] returns for them, [create_attachments] returns one card per
    entry and raises no [KeyError]. *)
Theorem attachments_of_classified_request {price : Type}
  (format_2f : price -> string) (strftime_A_d_B : Z -> string)
  (text : string) (dates : list Z) (w w' : world price)
  (found : menus price) :
  get_menu (get_campus text) dates w = (Ok found, w') ->
  exists atts,
    create_attachments format_2f strftime_A_d_B found = Ok atts
    /\ List.length atts = List.length found.
Proof.
  rewrite get_menu_unfold. intros Hrun.
  destruct (create_attachments_Forall2 format_2f strftime_A_d_B found)
    as (atts & Hatts & Hall).
  - intros key e Hin. apply (get_campus_in_codes text).
    refine (proj2 (loop_inv (fun key => In (snd key) (get_campus text))
                     _ _ _ _ _ _ _ _ Hrun key e Hin)).
    + intros [d c] rows Hk _ _. now apply in_prod_iff in Hk as [_ Hc].
    + intros k e' [].
  - exists atts. split; [exact Hatts|]. symmetry. exact (Forall2_length Hall).
Qed.

Lemma attachments_of_classified_request_witness :
  exists atts,
    create_attachments format_cents strftime_ordinal
      [((monday_2026_11_02, "cmi"), [("soup", ("tomato soup", 350, 420))])]
    = Ok atts
    /\ List.length atts = 1%nat.
Proof.
  apply (attachments_of_classified_request format_cents strftime_ordinal
           "lunch!" [monday_2026_11_02] one_soup_world
           (snd (get_menu (get_campus "lunch!") [monday_2026_11_02]
                   one_soup_world))).
  reflexivity.
Defined.

(** An entry gets no line exactly when none of its categories is one the
    formatter has a rule for, and then [format_menu] returns the empty
    string. *)
Theorem format_menu_empty {price : Type} (format_2f : price -> string)
  (m : entry price) :
  NoDup (dict_keys m) ->
  (format_menu_lines format_2f m = [] <->
   forall k, In k (dict_keys m) -> recognized k = false)
  /\ ((forall k, In k (dict_keys m) -> recognized k = false) ->
      format_menu format_2f m = "").
Proof.
  intros Hnd.
  assert (Hlines : format_menu_lines format_2f m = [] <->
                   forall k, In k (dict_keys m) -> recognized k = false).
  { rewrite (format_menu_lines_layout format_2f m
               (NoDup_keys_consistent m Hnd)).
    unfold lines_in_priority_order, line_of, lines_matching. split.
    - intros H k Hk.
      apply app_eq_nil in H as [Hsoup H].
      apply app_eq_nil in H as [Hveg H].
      apply app_eq_nil in H as [Hmeat H].
      apply app_eq_nil in H as [Hgrill Hpasta].
      destruct (recognized k) eqn:Erec; [exfalso|reflexivity].
      unfold recognized in Erec.
      assert (Hpresent : dict_get String.eqb k m <> None).
      { intros Hnone.
        now apply (dict_get_None_keys String.eqb String.eqb_eq) in Hnone. }
      unfold dict_keys in Hk. apply in_map_iff in Hk as ([k' v] & <- & Hkv).
      cbn [fst] in *.
      repeat (apply orb_true_iff in Erec as [Erec|Erec]).
      + apply String.eqb_eq in Erec. subst k'.
        now destruct (dict_get String.eqb "soup" m).
      + apply String.eqb_eq in Erec. subst k'.
        now destruct (dict_get String.eqb "vegetarian" m).
      + apply String.eqb_eq in Erec. subst k'.
        now destruct (dict_get String.eqb "meat" m).
      + apply map_eq_nil in Hgrill.
        apply (proj1 (filter_nil_iff _ _) Hgrill (k', v)) in Hkv.
        cbn [fst] in Hkv. congruence.
      + apply map_eq_nil in Hpasta.
        apply (proj1 (filter_nil_iff _ _) Hpasta (k', v)) in Hkv.
        cbn [fst] in Hkv. congruence.
    - intros Hnone.
      assert (Habsent : forall k, recognized k = true ->
                                  dict_get String.eqb k m = None).
      { intros k Hk.
        apply (dict_get_None_keys String.eqb String.eqb_eq).
        intros Hin. apply Hnone in Hin. congruence. }
      rewrite !Habsent by reflexivity.
      assert (Hfilter : forall word,
                 (forall k, contains word k = true -> recognized k = true) ->
                 filter (fun kv : string * item price =>
                           contains word (fst kv)) m = []).
      { intros word Hword. apply filter_nil_iff. intros [k v] Hkv.
        cbn [fst].
        destruct (contains word k) eqn:Ec; [|reflexivity].
        apply Hword in Ec.
        rewrite (Hnone k) in Ec; [discriminate|].
        now apply (in_map fst _ (k, v)). }
      rewrite !Hfilter; [reflexivity| |].
      + intros k Hk. unfold recognized. rewrite Hk. now rewrite !orb_true_r.
      + intros k Hk. unfold recognized. rewrite Hk. now rewrite !orb_true_r. }
  split; [exact Hlines|].
  intros Hnone. unfold format_menu.
  now rewrite (proj2 Hlines Hnone).
Qed.

Lemma format_menu_empty_witness :
  format_menu format_cents [("dessert", ("rice pudding", 150, 200))] = "".
Proof.
  apply (format_menu_empty format_cents
           [("dessert", ("rice pudding", 150, 200))]).
  - repeat constructor. intros [].
  - intros k [<-|[]]. reflexivity.
Defined.

(** ** The lunch pattern *)

Lemma append_nil_r (s : string) : (s ++ "")%string = s.
Proof. induction s as [|a s IH]; cbn; [reflexivity|now rewrite IH]. Qed.

Lemma append_assoc (s1 s2 s3 : string) :
  ((s1 ++ s2) ++ s3)%string = (s1 ++ s2 ++ s3)%string.
Proof. induction s1 as [|a s1 IH]; cbn; [reflexivity|now rewrite IH]. Qed.

Section LunchPattern.
(** [s] does not start with the character [c]. *)
Let not_at (c : ascii) (s : string) : Prop :=
  match s with
  | EmptyString => True
  | String a _ => Ascii.eqb a c = false
  end.

Lemma skip_run_repeat (c : ascii) (n : nat) (s : string) :
  not_at c s -> skip_run c (repeat_char c n ++ s) = s.
Proof.
  intros Hs. induction n as [|n IH]; cbn.
  - destruct s as [|a s]; [reflexivity|]. cbn in Hs. cbn [skip_run].
    now rewrite Hs.
  - now rewrite Ascii.eqb_refl.
Qed.

Lemma one_or_more_repeat (c : ascii) (n : nat) (s : string) :
  not_at c s -> one_or_more c (repeat_char c (S n) ++ s) = Some s.
Proof.
  intros Hs. cbn. rewrite Ascii.eqb_refl. now rewrite skip_run_repeat.
Qed.

Lemma skip_run_inv (c : ascii) (s : string) :
  exists n, s = (repeat_char c n ++ skip_run c s)%string
            /\ not_at c (skip_run c s).
Proof.
  induction s as [|a s (n & Hs & Hnot)]; cbn.
  - now exists 0%nat.
  - destruct (Ascii.eqb a c) eqn:E.
    + apply Ascii.eqb_eq in E. subst a. exists (S n). cbn.
      split; [now rewrite <- Hs|exact Hnot].
    + exists 0%nat. split; [reflexivity|exact E].
Qed.

Lemma one_or_more_inv (c : ascii) (s s' : string) :
  one_or_more c s = Some s' ->
  exists n, s = (repeat_char c (S n) ++ s')%string /\ not_at c s'.
Proof.
  destruct s as [|a s]; cbn; [discriminate|].
  destruct (Ascii.eqb a c) eqn:E; [|discriminate].
  apply Ascii.eqb_eq in E. subst a. intros H. injection H as <-.
  destruct (skip_run_inv c s) as (n & Hs & Hnot).
  exists n. split; [now rewrite <- Hs|exact Hnot].
Qed.

Lemma lunch_re_tail (l u n c h b : nat) (tail : string) :
  tail = "" \/ tail = nl ->
  lunch_re (repeat_char "l" (S l) ++ repeat_char "u" (S u)
              ++ repeat_char "n" (S n) ++ repeat_char "c" (S c)
              ++ repeat_char "h" (S h) ++ repeat_char "!" (S b) ++ tail)
  = true.
Proof.
  intros Htail. unfold lunch_re.
  rewrite one_or_more_repeat by reflexivity.
  rewrite one_or_more_repeat by reflexivity.
  rewrite one_or_more_repeat by reflexivity.
  rewrite one_or_more_repeat by reflexivity.
  rewrite one_or_more_repeat by reflexivity.
  rewrite one_or_more_repeat by (destruct Htail as [-> | ->]; reflexivity).
  destruct Htail as [-> | ->]; reflexivity.
Qed.

Lemma lunch_re_inv (text : string) :
  lunch_re text = true ->
  exists l u n c h b tail,
    (tail = "" \/ tail = nl)
    /\ text = (repeat_char "l" (S l) ++ repeat_char "u" (S u)
                 ++ repeat_char "n" (S n) ++ repeat_char "c" (S c)
                 ++ repeat_char "h" (S h) ++ repeat_char "!" (S b)
                 ++ tail)%string.
Proof.
  unfold lunch_re.
  destruct (one_or_more "l" text) as [s1|] eqn:E1; [|discriminate].
  destruct (one_or_more "u" s1) as [s2|] eqn:E2; [|discriminate].
  destruct (one_or_more "n" s2) as [s3|] eqn:E3; [|discriminate].
  destruct (one_or_more "c" s3) as [s4|] eqn:E4; [|discriminate].
  destruct (one_or_more "h" s4) as [s5|] eqn:E5; [|discriminate].
  destruct (one_or_more "!" s5) as [rest|] eqn:E6; [|discriminate].
  intros Hrest.
  apply one_or_more_inv in E1 as (l & -> & _).
  apply one_or_more_inv in E2 as (u & -> & _).
  apply one_or_more_inv in E3 as (n & -> & _).
  apply one_or_more_inv in E4 as (c & -> & _).
  apply one_or_more_inv in E5 as (h & -> & _).
  apply one_or_more_inv in E6 as (b & -> & _).
  exists l, u, n, c, h, b, rest. split; [|reflexivity].
  apply orb_true_iff in Hrest as [H|H]; apply String.eqb_eq in H; auto.
Qed.
End LunchPattern.

(** The pattern ['^l+u+n+c+h+!+$'] of line 168 accepts exactly the stretched
    spellings of "lunch!", alone or followed by one line feed. *)
Theorem lunch_re_language (text : string) :
  lunch_re text = true <->
  exists l u n c h b,
    text = stretched_lunch l u n c h b
    \/ text = (stretched_lunch l u n c h b ++ nl)%string.
Proof.
  split.
  - intros H. apply lunch_re_inv in H
      as (l & u & n & c & h & b & tail & Htail & ->).
    exists l, u, n, c, h, b. unfold stretched_lunch.
    destruct Htail as [-> | ->].
    + left. now rewrite append_nil_r.
    + right. now rewrite !append_assoc.
  - intros (l & u & n & c & h & b & [-> | ->]); unfold stretched_lunch.
    + rewrite <- (append_nil_r (repeat_char "!" (S b))).
      apply lunch_re_tail. now left.
    + rewrite !append_assoc. apply lunch_re_tail. now right.
Qed.

Lemma lunch_re_language_witness : lunch_re "luuunch!!" = true.
Proof.
  apply (lunch_re_language "luuunch!!").
  exists 0%nat, 2%nat, 0%nat, 0%nat, 0%nat, 1%nat. left. reflexivity.
Defined.

(** ** More on the bot controller *)

Section ControllerFacts.
Context {price : Type}.
Variable format_2f : price -> string.
Variable strftime_A_d_B : Z -> string.
Variable lower : string -> string.
Variable api_call : request -> M price response.
Variable update_run : M price unit.

(** A message that passes the filters of lines 159-169 is answered from its
    text in lower case. *)
Lemma process_message_answers (data : message) (t chan : string)
  (w : world price) :
  username data <> Some "komidabot" ->
  (forall s, subtype data = Some s -> contains "bot" s = false) ->
  text data = Some t ->
  channel data = Some chan ->
  String.prefix "C" chan = false
  \/ contains "komidabot" (lower t) = true
  \/ lunch_re (lower t) = true ->
  process_message format_2f strftime_A_d_B lower api_call update_run data w
  = answer format_2f strftime_A_d_B api_call update_run chan (lower t) w.
Proof.
  intros Huser Hsub Htext Hchan Htrigger. unfold process_message.
  rewrite Htext, Hchan.
  assert (Hbot : (match username data with
                  | Some u => String.eqb u "komidabot"
                  | None => false
                  end)
                 || (match subtype data with
                     | Some s => contains "bot" s
                     | None => false
                     end) = false).
  { apply orb_false_iff. split.
    - destruct (username data) as [u|]; [|reflexivity].
      destruct (String.eqb u "komidabot") eqn:E; [|reflexivity].
      apply String.eqb_eq in E. subst u. now contradiction Huser.
    - destruct (subtype data) as [s|]; [|reflexivity]. now apply Hsub. }
  rewrite Hbot.
  assert (Hpass : String.prefix "C" chan
                  && negb (contains "komidabot" (lower t)
                           || lunch_re (lower t)) = false).
  { destruct Htrigger as [-> |[-> | ->]]; [reflexivity| |].
    - now rewrite andb_false_r.
    - rewrite orb_true_r. now rewrite andb_false_r. }
  now rewrite Hpass.
Qed.
End ControllerFacts.

(** [process_message] does nothing, and leaves the world as it was, for a
    message of the bot itself, for a message whose subtype contains "bot",
    for a message without text, and for a message on a channel whose name
    starts with "C" when its text in lower case neither contains "komidabot"
    nor matches the lunch pattern. *)
Theorem process_message_ignores {price : Type}
  (format_2f : price -> string) (strftime_A_d_B : Z -> string)
  (lower : string -> string) (api_call : request -> M price response)
  (update_run : M price unit) (data : message) (w : world price) :
  username data = Some "komidabot"
  \/ (exists s, subtype data = Some s /\ contains "bot" s = true)
  \/ text data = None
  \/ (exists t chan,
         text data = Some t /\ channel data = Some chan
         /\ String.prefix "C" chan = true
         /\ contains "komidabot" (lower t) = false
         /\ lunch_re (lower t) = false) ->
  process_message format_2f strftime_A_d_B lower api_call update_run data w
  = (Ok tt, w).
Proof.
  unfold process_message.
  intros [Hu|[(s & Hs & Hbot)|[Ht|(t & chan & Ht & Hc & Hp & Hk & Hl)]]].
  - now rewrite Hu.
  - rewrite Hs, Hbot. now rewrite orb_true_r.
  - rewrite Ht. now destruct (_ || _).
  - rewrite Ht, Hc, Hp, Hk, Hl. now destruct (_ || _).
Qed.

Lemma process_message_ignores_witness :
  process_message format_cents strftime_ordinal lower_string
    accepting_api_call failing_update_run
    {| username := Some "alice"; subtype := None;
       text := Some "What is for dinner?"; channel := Some "C024BE7LR" |}
    one_soup_world
  = (Ok tt, one_soup_world).
Proof.
  apply (process_message_ignores format_cents strftime_ordinal lower_string
           accepting_api_call failing_update_run).
  right. right. right.
  exists "What is for dinner?", "C024BE7LR". repeat split.
Defined.

(** An exception of [get_date] or of the first [get_menu] is not handled:
    for a message that passes the filters it escapes [process_message], and
    the world is the one the failed call left, so nothing was sent or
    logged. *)
Theorem process_message_lookup_error_escapes {price : Type}
  (format_2f : price -> string) (strftime_A_d_B : Z -> string)
  (lower : string -> string) (api_call : request -> M price response)
  (update_run : M price unit) (data : message) (t chan : string)
  (w : world price) (e : exn) :
  username data <> Some "komidabot" ->
  (forall s, subtype data = Some s -> contains "bot" s = false) ->
  text data = Some t ->
  channel data = Some chan ->
  String.prefix "C" chan = false
  \/ contains "komidabot" (lower t) = true
  \/ lunch_re (lower t) = true ->
  (get_date (clock w) (lower t) = Raise e ->
   process_message format_2f strftime_A_d_B lower api_call update_run data w
   = (Raise e, w))
  /\ (forall dates w',
         get_date (clock w) (lower t) = Ok dates ->
         get_menu (get_campus (lower t)) dates w = (Raise e, w') ->
         process_message format_2f strftime_A_d_B lower api_call update_run
           data w
         = (Raise e, w')).
Proof.
  intros Huser Hsub Htext Hchan Htrigger.
  rewrite (process_message_answers format_2f strftime_A_d_B lower api_call
             update_run data t chan w Huser Hsub Htext Hchan Htrigger).
  unfold answer. cbv zeta. split.
  - intros Hd. unfold bind at 1. unfold get_date_now. now rewrite Hd.
  - intros dates w' Hd Hm. unfold bind at 1. unfold get_date_now.
    rewrite Hd. unfold bind at 1. now rewrite Hm.
Qed.

Lemma process_message_lookup_error_escapes_witness :
  process_message format_cents strftime_ordinal lower_string
    accepting_api_call failing_update_run
    {| username := Some "alice"; subtype := None;
       text := Some "Lunch!"; channel := Some "D024BE7LR" |}
    broken_world
  = (Raise (Exn "OperationalError" "no such table: menu"),
     snd (get_menu ["cmi"] [monday_2026_11_02] broken_world)).
Proof.
  refine (proj2 (process_message_lookup_error_escapes
                   format_cents strftime_ordinal lower_string
                   accepting_api_call failing_update_run
                   {| username := Some "alice"; subtype := None;
                      text := Some "Lunch!"; channel := Some "D024BE7LR" |}
                   "Lunch!" "D024BE7LR" broken_world
                   (Exn "OperationalError" "no such table: menu")
                   _ _ eq_refl eq_refl _)
            [monday_2026_11_02] _ eq_refl eq_refl).
  - discriminate.
  - discriminate.
  - left. reflexivity.
Defined.

(** When the first lookup finds a menu, [process_message] neither sends the
    interim notice nor runs the refresh: it builds one card per entry and
    makes a single call of the transport with the text "*LUNCH!*" and those
    cards, followed by the check of its answer. *)
Theorem process_message_replies_lunch {price : Type}
  (format_2f : price -> string) (strftime_A_d_B : Z -> string)
  (lower : string -> string) (api_call : request -> M price response)
  (update_run : M price unit) (data : message) (t chan : string)
  (dates : list Z) (found : menus price) (w w1 : world price) :
  username data <> Some "komidabot" ->
  (forall s, subtype data = Some s -> contains "bot" s = false) ->
  text data = Some t ->
  channel data = Some chan ->
  String.prefix "C" chan = false
  \/ contains "komidabot" (lower t) = true
  \/ lunch_re (lower t) = true ->
  get_date (clock w) (lower t) = Ok dates ->
  get_menu (get_campus (lower t)) dates w = (Ok found, w1) ->
  found <> [] ->
  exists atts,
    create_attachments format_2f strftime_A_d_B found = Ok atts
    /\ List.length atts = List.length found
    /\ process_message format_2f strftime_A_d_B lower api_call update_run
         data w
       = bind
           (api_call {| rq_channel := chan; rq_text := "*LUNCH!*";
                        rq_attachments := Some atts;
                        rq_username := "komidabot";
                        rq_icon_emoji := ":fork_and_knife:" |})
           (check_sent price api_call chan) w1.
Proof.
  intros Huser Hsub Htext Hchan Htrigger Hd Hm Hfound.
  assert (Hcards : exists atts,
             create_attachments format_2f strftime_A_d_B found = Ok atts
             /\ List.length atts = List.length found).
  { destruct (create_attachments_Forall2 format_2f strftime_A_d_B found)
      as (atts & Hatts & Hall).
    - intros key e Hin. apply (get_campus_in_codes (lower t)).
      pose proof Hm as Hrun. rewrite get_menu_unfold in Hrun.
      refine (proj2 (loop_inv
                       (fun key => In (snd key) (get_campus (lower t)))
                       _ _ _ _ _ _ _ _ Hrun key e Hin)).
      + intros [d c] rows Hk _ _. now apply in_prod_iff in Hk as [_ Hc].
      + intros k e' [].
    - exists atts. split; [exact Hatts|].
      symmetry. exact (Forall2_length Hall). }
  destruct Hcards as (atts & Hatts & Hlen).
  exists atts. split; [exact Hatts|]. split; [exact Hlen|].
  rewrite (process_message_answers format_2f strftime_A_d_B lower api_call
             update_run data t chan w Huser Hsub Htext Hchan Htrigger).
  unfold answer. cbv zeta.
  unfold bind at 1. unfold get_date_now. rewrite Hd.
  unfold bind at 1. rewrite Hm.
  destruct found as [|kv found]; [now contradiction Hfound|].
  cbn [nonempty]. unfold bind at 1. unfold ret at 1.
  unfold reply. cbn [nonempty].
  unfold bind at 1. unfold bind at 1. unfold eval. rewrite Hatts.
  reflexivity.
Qed.

Lemma process_message_replies_lunch_witness :
  exists atts,
    create_attachments format_cents strftime_ordinal
      [((monday_2026_11_02, "cmi"), [("soup", ("tomato soup", 350, 420))])]
    = Ok atts
    /\ List.length atts = 1%nat
    /\ process_message format_cents strftime_ordinal lower_string
         accepting_api_call failing_update_run
         {| username := Some "alice"; subtype := None;
            text := Some "LUNCH!"; channel := Some "C024BE7LR" |}
         one_soup_world
       = bind
           (accepting_api_call
              {| rq_channel := "C024BE7LR"; rq_text := "*LUNCH!*";
                 rq_attachments := Some atts;
                 rq_username := "komidabot";
                 rq_icon_emoji := ":fork_and_knife:" |})
           (check_sent cents accepting_api_call "C024BE7LR")
           (snd (get_menu ["cmi"] [monday_2026_11_02] one_soup_world)).
Proof.
  apply (process_message_replies_lunch format_cents strftime_ordinal
           lower_string accepting_api_call failing_update_run
           {| username := Some "alice"; subtype := None;
              text := Some "LUNCH!"; channel := Some "C024BE7LR" |}
           "LUNCH!" "C024BE7LR" [monday_2026_11_02]
           [((monday_2026_11_02, "cmi"),
             [("soup", ("tomato soup", 350, 420))])]
           one_soup_world
           (snd (get_menu ["cmi"] [monday_2026_11_02] one_soup_world))).
  - discriminate.
  - discriminate.
  - reflexivity.
  - reflexivity.
  - right. right. reflexivity.
  - reflexivity.
  - reflexivity.
  - discriminate.
Defined.

(** When no menu was found, the reply is a single call of the transport
    with the failure text and a link that is always one of the five of
    [fail_gifs], without cards. *)
Theorem reply_fallback_link {price : Type}
  (format_2f : price -> string) (strftime_A_d_B : Z -> string)
  (api_call : request -> M price response) (chan : string)
  (w : world price) :
  exists gif w1,
    In gif fail_gifs
    /\ logs w1 = logs w /\ store w1 = store w
    /\ reply format_2f strftime_A_d_B api_call chan [] w
       = bind
           (api_call
              {| rq_channel := chan;
                 rq_text :=
                   ("_COMPUTER SAYS NO._ I'm sorry, no menu has been found."
                      ++ nl ++ gif)%string;
                 rq_attachments := None;
                 rq_username := "komidabot";
                 rq_icon_emoji := ":fork_and_knife:" |})
           (check_sent price api_call chan) w1.
Proof.
  exists (nth (Nat.modulo (hd 0%nat (entropy w)) (List.length fail_gifs))
            fail_gifs ""),
         (snd (random_choice price fail_gifs w)).
  split; [|split; [reflexivity|split; [reflexivity|]]].
  - apply nth_In. apply Nat.mod_upper_bound. discriminate.
  - reflexivity.
Qed.
